(** * Event validation: recurring date ranges and collision detection

    A shallow embedding of [events/validation.py]: the [Event] record, the
    [active_days] generator, [find_collisions], [check_date_configuration]
    and the attribute handling of [make_event], with the properties of the
    specification proved (or refuted) over them.

    Conventions of the embedding.
    - A Python [datetime.date] is a record of three integers; the library
      operations the module calls on it ([+ timedelta(days=1)],
      [.replace(year=...)], [==], [strftime("%B %d")]) are written out with
      the exceptions they raise.
    - A generator is modelled by what a consumer that drains it observes:
      the list of yielded values and the way the generator ended.  The
      [while True] loop takes a fuel argument; running out of fuel is a
      separate ending, never confused with a normal stop.
    - A Python [dict] whose iteration order the code relies on is an
      association list in insertion order. *)

From Stdlib Require Import ZArith List Bool String Ascii Lia Arith Permutation.
From Stdlib Require Import DecimalString ZifyNat.
Import ListNotations.

Local Open Scope Z_scope.

(* ================================================================== *)
(** ** Dates *)

Module Date.

Record date : Type := mkdate { year : Z; month : Z; day : Z }.

(** [date.__eq__]: componentwise comparison. *)
Definition eqb (a b : date) : bool :=
  (year a =? year b) && (month a =? month b) && (day a =? day b).

Definition is_leap (y : Z) : bool :=
  (y mod 4 =? 0) && (negb (y mod 100 =? 0) || (y mod 400 =? 0)).

Definition days_in_month (y m : Z) : Z :=
  if m =? 2 then (if is_leap y then 29 else 28)
  else if (m =? 4) || (m =? 6) || (m =? 9) || (m =? 11) then 30
  else 31.

Definition MINYEAR : Z := 1.
Definition MAXYEAR : Z := 9999.

(** The check the [date] constructor performs on its arguments. *)
Definition valid (d : date) : bool :=
  (MINYEAR <=? year d) && (year d <=? MAXYEAR)
  && (1 <=? month d) && (month d <=? 12)
  && (1 <=? day d) && (day d <=? days_in_month (year d) (month d)).

(** The exceptions of the module and of the library calls it makes. *)
Inductive exn : Type :=
| Misconfiguration (msg : string)
| RuntimeError (msg : string)
| OverflowError
| ValueError
| KeyError (key : string)
| OSError (msg : string).

(** [d + timedelta(days=1)]: the next day of the proleptic Gregorian
    calendar, [OverflowError] past [date.max]. *)
Definition add_one_day (d : date) : exn + date :=
  if day d <? days_in_month (year d) (month d)
  then inr (mkdate (year d) (month d) (day d + 1))
  else if month d <? 12
  then inr (mkdate (year d) (month d + 1) 1)
  else if year d <? MAXYEAR
  then inr (mkdate (year d + 1) 1 1)
  else inl OverflowError.

(** [d.replace(year=y)]: rebuilds the date, [ValueError] when the day
    does not exist in year [y]. *)
Definition replace_year (d : date) (y : Z) : exn + date :=
  let d' := mkdate y (month d) (day d) in
  if valid d' then inr d' else inl ValueError.

End Date.

Import Date.

(* ================================================================== *)
(** ** The module's data *)

(** Arbitrary year in which date checks are done (intentionally leap, to
    allow Feb 29). *)
Definition ARBITRARY_YEAR : Z := 2020.

Record Event : Type := mkEvent {
  name : string;
  fallback : bool;
  start_date : option date;
  end_date : option date;
  description : string
}.

(* ================================================================== *)
(** ** [active_days] *)

(** How a drained generator ended. *)
Inductive ending : Type :=
| Stop                    (* the generator returned *)
| Raise (e : exn)         (* an exception left the generator *)
| Running.                (* the fuel ran out before either *)

Definition run : Type := (list date * ending)%type.

Definition yield (d : date) (r : run) : run := (d :: fst r, snd r).

Definition usage_message : string :=
  "Cannot generate days: event does not have start and date!".

(** The [while True] loop of [active_days], from the current [state]. *)
Fixpoint active_days_loop (fuel : nat) (state end_ : date) : run :=
  match fuel with
  | O => ([], Running)
  | S fuel' =>
      yield state
        (if eqb state end_ then ([], Stop)
         else match add_one_day state with
              | inl e => ([], Raise e)
              | inr next =>
                  match replace_year next ARBITRARY_YEAR with
                  | inl e => ([], Raise e)
                  | inr state' => active_days_loop fuel' state' end_
                  end
              end)
  end.

Definition active_days (fuel : nat) (event : Event) : run :=
  match start_date event, end_date event with
  | Some s, Some e => active_days_loop fuel s e
  | _, _ => ([], Raise (RuntimeError usage_message))
  end.

(* ================================================================== *)
(** ** [find_collisions] *)

(** What a call of a function of the module comes to. *)
Inductive result (A : Type) : Type :=
| Return (a : A)
| Raised (e : exn)
| Diverged.               (* the fuel ran out *)

Arguments Return {A} a.
Arguments Raised {A} e.
Arguments Diverged {A}.

(** [defaultdict(list)], in insertion order. *)
Definition schedule : Type := list (date * list Event).

(** [schedule[day].append(event)]: a present key keeps its place and gets
    the event at the end of its list; a missing key is added last. *)
Fixpoint schedule_append (s : schedule) (day : date) (event : Event) : schedule :=
  match s with
  | [] => [(day, [event])]
  | (k, evs) :: rest =>
      if eqb k day then (k, evs ++ [event]) :: rest
      else (k, evs) :: schedule_append rest day event
  end.

(** The inner [for day in active_days(event)] loop, once the generator is
    known to have stopped normally. *)
Definition add_days (s : schedule) (days : list date) (event : Event) : schedule :=
  fold_left (fun acc day => schedule_append acc day event) days s.

(** The outer [for event in events] loop.  An exception of the generator
    leaves [find_collisions]; the partly filled schedule is a local and is
    lost with it. *)
Fixpoint fill_schedule (fuel : nat) (events : list Event) (s : schedule)
  : result schedule :=
  match events with
  | [] => Return s
  | event :: rest =>
      match active_days fuel event with
      | (days, Stop) => fill_schedule fuel rest (add_days s days event)
      | (_, Raise e) => Raised e
      | (_, Running) => Diverged
      end
  end.

Definition find_collisions (fuel : nat) (events : list Event) : result schedule :=
  match fill_schedule fuel events [] with
  | Return s => Return (filter (fun kv => (1 <? List.length (snd kv))%nat) s)
  | Raised e => Raised e
  | Diverged => Diverged
  end.

(* ================================================================== *)
(** ** [check_date_configuration] *)

Definition nl : string := String (ascii_of_nat 10) EmptyString.

(** [sep.join(parts)]. *)
Fixpoint join (sep : string) (parts : list string) : string :=
  match parts with
  | [] => EmptyString
  | [p] => p
  | p :: rest => (p ++ sep ++ join sep rest)%string
  end.

(** [%B] in the C locale. *)
Definition month_name (m : Z) : string :=
  match m with
  | 1 => "January" | 2 => "February" | 3 => "March" | 4 => "April"
  | 5 => "May" | 6 => "June" | 7 => "July" | 8 => "August"
  | 9 => "September" | 10 => "October" | 11 => "November" | 12 => "December"
  | _ => EmptyString
  end.

Definition digit (n : Z) : ascii := ascii_of_nat (48 + Z.to_nat n).

(** [%d]: the day of the month as two digits. *)
Definition two_digits (n : Z) : string :=
  String (digit (n / 10)) (String (digit (n mod 10)) EmptyString).

(** [day.strftime("%B %d")], e.g. January 24. *)
Definition strftime_B_d (d : date) : string :=
  (month_name (month d) ++ " " ++ two_digits (day d))%string.

Definition report_line (kv : date * list Event) : string :=
  (strftime_B_d (fst kv) ++ ": " ++ join ", " (map name (snd kv)))%string.

Definition no_fallback_message : string := "There is no fallback event".

Definition multiple_fallback_message (fallback_events : list Event) : string :=
  ("There are multiple fallback events: "
   ++ join ", " (map name fallback_events) ++ " (must be exactly 1)")%string.

Definition collision_message (collisions : schedule) : string :=
  ("Event collision detected:" ++ nl ++ join nl (map report_line collisions))%string.

Definition check_date_configuration (fuel : nat) (events : list Event)
  : result unit :=
  let fallback_events := filter fallback events in
  match fallback_events with
  | [] => Raised (Misconfiguration no_fallback_message)
  | _ :: _ =>
      if (1 <? List.length fallback_events)%nat
      then Raised (Misconfiguration (multiple_fallback_message fallback_events))
      else
        let non_fallback_events := filter (fun e => negb (fallback e)) events in
        match find_collisions fuel non_fallback_events with
        | Return [] => Return tt
        | Return collisions =>
            Raised (Misconfiguration (collision_message collisions))
        | Raised e => Raised e
        | Diverged => Diverged
        end
  end.

(* ================================================================== *)
(** ** [make_event] *)

(** A value of the front matter, as far as the module looks at it. *)
Inductive value : Type :=
| VBool (b : bool)
| VStr (s : string)
| VOther (str : string).    (* any other YAML value, by its [str()] *)

Definition py_str (v : value) : string :=
  match v with
  | VBool true => "True"
  | VBool false => "False"
  | VStr s => s
  | VOther s => s
  end.

Definition str_of_nat (n : nat) : string :=
  NilEmpty.string_of_uint (Nat.to_uint n).

Definition str_of_Z (z : Z) : string :=
  NilEmpty.string_of_int (Z.to_int z).

Definition attributes : Type := list (string * value).

(** [attrs.get(key)]. *)
Fixpoint get (attrs : attributes) (key : string) : option value :=
  match attrs with
  | [] => None
  | (k, v) :: rest => if String.eqb k key then Some v else get rest key
  end.

Definition is_empty (s : string) : bool :=
  match s with EmptyString => true | _ => false end.

(** What [make_event] observes when it runs on the event directory
    [from_dir]:
    - the three existence tests;
    - for each of the two asset folders, what listing it with [iterdir()]
      and keeping the files gives: the files, or the text of the [OSError]
      that the listing raises (a folder that cannot be read);
    - what reading [meta.md] and [frontmatter.parse] give: the text of the
      exception, or the attributes and the description;
    - the order in which the interpreter iterates the set of the missing
      date attributes when both are missing, which varies with the hash
      seed of the process: [end_date] first, or [start_date] first. *)
Record directory : Type := mkdirectory {
  server_icons_is_dir : bool;
  banners_is_dir : bool;
  meta_is_file : bool;
  server_icons_files : string + list string;
  banners_files : string + list string;
  meta_parsed : string + (attributes * string);
  end_date_first : bool
}.

Section MakeEvent.

(** [datetime.strptime(text, fmt).date()]: the date, or the text of the
    exception raised. *)
Variable strptime : string -> string -> string + date.

Definition date_fmt : string := "%B %d %Y".

(** The [try] block around one date attribute. *)
Definition parse_date (key : string) (attrs : attributes) : result date :=
  match get attrs key with
  | None => Raised (KeyError key)
  | Some v =>
      match strptime (py_str v ++ " " ++ str_of_Z ARBITRARY_YEAR)%string date_fmt with
      | inr d => Return d
      | inl exc =>
          Raised (Misconfiguration
                    ("Attribute '" ++ key ++ "' with value '" ++ py_str v
                     ++ "' failed to parse: " ++ exc)%string)
      end
  end.

Definition make_event (name : string) (from_dir : directory) : result Event :=
  let asset_requirements :=
    [("server_icons"%string, server_icons_is_dir from_dir);
     ("banners"%string, banners_is_dir from_dir);
     ("meta.md"%string, meta_is_file from_dir)] in
  let missing_assets :=
    join ", " (map fst (filter (fun r => negb (snd r)) asset_requirements)) in
  if negb (is_empty missing_assets)
  then Raised (Misconfiguration ("Missing assets: " ++ missing_assets)%string)
  else
  (* the two listings are outside every [try]: what they raise leaves
     [make_event] as it is *)
  match server_icons_files from_dir with
  | inl os_error => Raised (OSError os_error)
  | inr icons =>
  match banners_files from_dir with
  | inl os_error => Raised (OSError os_error)
  | inr banners =>
  match icons with
  | [] => Raised (Misconfiguration "No files in 'server_icons'")
  | _ :: _ =>
  match banners with
  | [] => Raised (Misconfiguration "No files in the `banners` folder")
  | _ :: _ =>
  match meta_parsed from_dir with
  | inl parse_exc =>
      Raised (Misconfiguration ("Failed to parse 'meta.md': " ++ parse_exc)%string)
  | inr (attrs, description) =>
      if is_empty description
      then Raised (Misconfiguration "No description in 'meta.md'")
      else if negb (String.length description <=? 2048)%nat
      then Raised (Misconfiguration
                     ("Description too long ("
                      ++ str_of_nat (String.length description)
                      ++ " characters), must be <= 2048")%string)
      else
      let fallback := match get attrs "fallback" with
                      | Some v => v
                      | None => VBool false
                      end in
      match fallback with
      | VBool true => Return (mkEvent name true None None description)
      | VBool false =>
          (* {"start_date", "end_date"} - attrs.keys(): a set, joined in
             the order in which the interpreter iterates it *)
          let missing :=
            filter (fun k => match get attrs k with None => true | Some _ => false end)
                   ["start_date"%string; "end_date"%string] in
          let missing_dates :=
            if end_date_first from_dir then rev missing else missing in
          match missing_dates with
          | _ :: _ =>
              Raised (Misconfiguration
                        ("Non-fallback event must have attributes: "
                         ++ join ", " missing_dates)%string)
          | [] =>
              match parse_date "start_date" attrs with
              | Return start_date =>
                  match parse_date "end_date" attrs with
                  | Return end_date =>
                      Return (mkEvent name false (Some start_date)
                                      (Some end_date) description)
                  | Raised e => Raised e
                  | Diverged => Diverged
                  end
              | Raised e => Raised e
              | Diverged => Diverged
              end
          end
      | _ => Raised (Misconfiguration "Value under 'fallback' key must be a boolean")
      end
  end end end end end.

End MakeEvent.

(** A reference instance of the parser argument of [make_event], for the
    one format the module uses, [%B %d %Y]: the full month name in any
    letter case, a day of one or two digits and a year of four digits,
    separated by white space, with the texts of the [ValueError] that
    [strptime] raises on plain ASCII text.  The theorems on [make_event]
    hold for every parser; the closed examples run this one. *)
Module Strptime.

Definition lower (c : ascii) : ascii :=
  let n := nat_of_ascii c in
  if ((65 <=? n) && (n <=? 90))%nat then ascii_of_nat (n + 32) else c.

Fixpoint strip_prefix (p s : string) : option string :=
  match p, s with
  | EmptyString, _ => Some s
  | String a p', String b s' =>
      if Ascii.eqb (lower a) (lower b) then strip_prefix p' s' else None
  | String _ _, EmptyString => None
  end.

Fixpoint strip_month (months : list Z) (s : string) : option (Z * string) :=
  match months with
  | [] => None
  | m :: rest =>
      match strip_prefix (month_name m) s with
      | Some r => Some (m, r)
      | None => strip_month rest s
      end
  end.

(** White space, as the [\s] of a format string takes it: blank, tab,
    line feed, vertical tab, form feed, carriage return and the four
    separators. *)
Definition is_blank (c : ascii) : bool :=
  let n := nat_of_ascii c in
  ((n =? 32) || ((9 <=? n) && (n <=? 13)) || ((28 <=? n) && (n <=? 31)))%nat.

Fixpoint skip_blanks (s : string) : string :=
  match s with
  | String c r => if is_blank c then skip_blanks r else s
  | EmptyString => s
  end.

Definition blanks (s : string) : option string :=
  match s with
  | String c r => if is_blank c then Some (skip_blanks r) else None
  | EmptyString => None
  end.

Definition digit_value (c : ascii) : option Z :=
  let n := nat_of_ascii c in
  if ((48 <=? n) && (n <=? 57))%nat then Some (Z.of_nat (n - 48)) else None.

Definition strip_day (s : string) : option (Z * string) :=
  match s with
  | String a (String b r) =>
      match digit_value a, digit_value b with
      | Some x, Some y =>
          let n := 10 * x + y in
          if (1 <=? n) && (n <=? 31) then Some (n, r)
          else if 1 <=? x then Some (x, String b r) else None
      | Some x, None => if 1 <=? x then Some (x, String b r) else None
      | None, _ => None
      end
  | String a EmptyString =>
      match digit_value a with
      | Some x => if 1 <=? x then Some (x, EmptyString) else None
      | None => None
      end
  | EmptyString => None
  end.

Definition strip_year (s : string) : option (Z * string) :=
  match s with
  | String a (String b (String c (String d r))) =>
      match digit_value a, digit_value b, digit_value c, digit_value d with
      | Some w, Some x, Some y, Some z =>
          Some (1000 * w + 100 * x + 10 * y + z, r)
      | _, _, _, _ => None
      end
  | _ => None
  end.

Definition no_match (text : string) : string :=
  ("time data '" ++ text ++ "' does not match format '%B %d %Y'")%string.
Definition unconverted (rest : string) : string :=
  ("unconverted data remains: " ++ rest)%string.
Definition year_out_of_range : string := "year 0 is out of range".
Definition out_of_range : string := "day is out of range for month".

Definition B_d_Y (text : string) : string + date :=
  match strip_month (map Z.of_nat (seq 1 12)) text with
  | None => inl (no_match text)
  | Some (m, r1) =>
      match blanks r1 with
      | None => inl (no_match text)
      | Some r2 =>
          match strip_day r2 with
          | None => inl (no_match text)
          | Some (d, r3) =>
              match blanks r3 with
              | None => inl (no_match text)
              | Some r4 =>
                  match strip_year r4 with
                  | None => inl (no_match text)
                  | Some (y, EmptyString) =>
                      if y <? MINYEAR then inl year_out_of_range
                      else if valid (mkdate y m d) then inr (mkdate y m d)
                      else inl out_of_range
                  | Some (_, rest) => inl (unconverted rest)
                  end
              end
          end
      end
  end.

Definition strptime (text fmt : string) : string + date :=
  if String.eqb fmt "%B %d %Y" then B_d_Y text
  else inl "unsupported format"%string.

End Strptime.

(* ================================================================== *)
(** ** [main] *)






Section Main.

Variable strptime : string -> string -> string + date.



End Main.

(* ================================================================== *)
(** ** The calendar of the reference year

    What the properties are stated with: the calendar as a list, the
    position of a day in it, and the interval between two days on the
    calendar read cyclically. *)

(** [lo, lo+1, ..., lo+n-1]. *)
Definition zrange (lo : Z) (n : nat) : list Z :=
  map (fun i => lo + Z.of_nat i) (seq 0 n).

Definition month_days (m : Z) : list date :=
  map (mkdate ARBITRARY_YEAR m)
      (zrange 1 (Z.to_nat (days_in_month ARBITRARY_YEAR m))).

(** Every day of the reference year, in month-then-day order. *)
Definition calendar : list date := flat_map month_days (zrange 1 12).

Definition Jan1 : date := mkdate ARBITRARY_YEAR 1 1.

(** Position of a date in a list of dates (the length when absent). *)
Fixpoint index (d : date) (l : list date) : nat :=
  match l with
  | [] => O
  | x :: r => if eqb x d then O else S (index d r)
  end.

(** Day of the year, counted from 0 for Jan 1. *)
Definition yday (d : date) : nat := index d calendar.

(** The calendar read cyclically: Dec 31 is followed by Jan 1. *)
Definition day_at (i : nat) : date := nth (i mod 366) calendar Jan1.

(** A well-formed date of the reference year. *)
Definition in_reference_year (d : date) : bool :=
  (year d =? ARBITRARY_YEAR) && valid d.

(** Number of steps from [s] forward to [t] on the cyclic calendar. *)
Definition span (s t : date) : nat := (yday t + 366 - yday s) mod 366.

(** The days from [s] to [t], both included: consecutive days of the
    cyclic calendar. *)
Definition interval (s t : date) : list date :=
  map (fun i => day_at (yday s + i)) (seq 0 (S (span s t))).

(** Calendar order: month, then day. *)
Definition calendar_leb (a b : date) : bool :=
  (month a <? month b) || ((month a =? month b) && (day a <=? day b)).

Fixpoint calendar_sorted (l : list date) : bool :=
  match l with
  | a :: ((b :: _) as r) => calendar_leb a b && calendar_sorted r
  | _ => true
  end.

(** One turn of the loop of [active_days] after the yield: the day after
    [state], brought back to the reference year. *)
Definition next_state (state : date) : exn + date :=
  match add_one_day state with
  | inl e => inl e
  | inr next => replace_year next ARBITRARY_YEAR
  end.

(* ================================================================== *)
(** ** Events and their days *)

(** An event as [make_event] builds a dated one: both dates present, in
    the reference year. *)
Definition dated (e : Event) : Prop :=
  exists s t, start_date e = Some s /\ end_date e = Some t
              /\ in_reference_year s = true /\ in_reference_year t = true.

(** The days on which an event is active. *)
Definition days (e : Event) : list date :=
  match start_date e, end_date e with
  | Some s, Some t => interval s t
  | _, _ => []
  end.

(** The test [None in (event.start_date, event.end_date)]. *)
Definition lacks_dates (e : Event) : bool :=
  match start_date e, end_date e with
  | Some _, Some _ => false
  | _, _ => true
  end.

(** The invariant of the data model: a fallback event has no date, another
    event has both. *)
Definition well_formed (e : Event) : Prop :=
  (fallback e = true /\ start_date e = None /\ end_date e = None)
  \/ (fallback e = false /\ start_date e <> None /\ end_date e <> None).

(** [event._replace(fallback=b)]. *)
Definition with_fallback (b : bool) (e : Event) : Event :=
  mkEvent (name e) b (start_date e) (end_date e) (description e).

(** [except Misconfiguration]: whether the handler of [main] catches [e]. *)
Definition is_misconfiguration (e : exn) : bool :=
  match e with
  | Misconfiguration _ => true
  | _ => false
  end.

(* ================================================================== *)
(** ** Reading a schedule *)

(** [schedule.get(day, [])]. *)
Fixpoint lookup (s : schedule) (day : date) : list Event :=
  match s with
  | [] => []
  | (k, evs) :: rest => if eqb k day then evs else lookup rest day
  end.

(** The keys of a dict after [day] is used as a key of it. *)
Definition add_key (ks : list date) (day : date) : list date :=
  if existsb (eqb day) ks then ks else ks ++ [day].

(** The dates of a list in the order of their first occurrence. *)
Definition first_occurrences (l : list date) : list date :=
  fold_left add_key l [].

(** The events of [events] that claim [day], in the order of [events]. *)
Definition claimants (day : date) (events : list Event) : list Event :=
  filter (fun e => existsb (eqb day) (days e)) events.

(** The schedule after the loops of [find_collisions] over [events]. *)
Definition filled (events : list Event) (s : schedule) : schedule :=
  fold_left (fun acc e => add_days acc (days e) e) events s.

(** The non-fallback events, as [check_date_configuration] selects them. *)
Definition non_fallback (events : list Event) : list Event :=
  filter (fun e => negb (fallback e)) events.

(** [check_date_configuration] failed on the number of fallback events. *)
Definition cardinality_failure (r : result unit) : Prop :=
  r = Raised (Misconfiguration no_fallback_message)
  \/ exists fallback_events,
      r = Raised (Misconfiguration (multiple_fallback_message fallback_events)).

(* ================================================================== *)
(** ** Reading an event directory *)

(** [attrs.get("fallback", False)]. *)
Definition fallback_attribute (attrs : attributes) : value :=
  match get attrs "fallback" with
  | Some v => v
  | None => VBool false
  end.

(** A directory that passes the checks on assets and description. *)
Definition complete (from_dir : directory) (attrs : attributes)
           (description : string) : Prop :=
  server_icons_is_dir from_dir = true
  /\ banners_is_dir from_dir = true
  /\ meta_is_file from_dir = true
  /\ (exists icons, server_icons_files from_dir = inr icons /\ icons <> [])
  /\ (exists banners, banners_files from_dir = inr banners /\ banners <> [])
  /\ meta_parsed from_dir = inr (attrs, description)
  /\ is_empty description = false
  /\ (String.length description <= 2048)%nat.


(** The assets that [from_dir] lacks, in the order in which [make_event]
    lists them. *)
Definition missing_names (from_dir : directory) : list string :=
  (if server_icons_is_dir from_dir then [] else ["server_icons"%string])
  ++ (if banners_is_dir from_dir then [] else ["banners"%string])
  ++ (if meta_is_file from_dir then [] else ["meta.md"%string]).

(* ================================================================== *)
(** ** Reading the output of [main] *)

Section Loaded.

Variable strptime : string -> string -> string + date.




End Loaded.

(* ================================================================== *)
(** ** The events and directories of the examples *)

Definition md (m d : Z) : date := mkdate ARBITRARY_YEAR m d.

Definition dated_event (n : string) (s t : date) : Event :=
  mkEvent n false (Some s) (Some t) "An event.".

Definition fallback_event (n : string) : Event :=
  mkEvent n true None None "The fallback event.".

Definition event_A : Event := dated_event "A" (md 1 1) (md 1 10).
Definition event_B : Event := dated_event "B" (md 1 5) (md 1 20).

(** Three events that collide on Mar 5 and on Mar 1, with the fallback. *)
Definition spring : list Event :=
  [ fallback_event "evergreen";
    dated_event "A" (md 3 5) (md 3 5);
    dated_event "B" (md 3 1) (md 3 1);
    dated_event "C" (md 3 1) (md 3 5) ].

(** An event directory with all its assets, whose [meta.md] holds [attrs]. *)
Definition directory_with (attrs : attributes) : directory :=
  mkdirectory true true true
              (inr ["icon.png"%string]) (inr ["banner.png"%string])
              (inr (attrs, "Shown all year round."%string)) false.




(** Flagged fallback, and both dates given as well. *)
Definition fallback_with_dates : attributes :=
  [ ("fallback"%string, VBool true);
    ("start_date"%string, VStr "July 10");
    ("end_date"%string, VStr "July 20") ].

(* ================================================================== *)
(** ** Facts on dates and on the calendar *)

Lemma eqb_eq (a b : date) : eqb a b = true <-> a = b.
Proof.
  unfold eqb. destruct a as [y m d], b as [y' m' d']; simpl.
  rewrite !andb_true_iff, !Z.eqb_eq. split.
  - intros [[-> ->] ->]. reflexivity.
  - intros H. injection H as -> -> ->. auto.
Qed.

Lemma eqb_refl (a : date) : eqb a a = true.
Proof. apply eqb_eq. reflexivity. Qed.

Lemma eqb_neq (a b : date) : eqb a b = false <-> a <> b.
Proof.
  rewrite <- eqb_eq. destruct (eqb a b); split; congruence.
Qed.

Lemma eqb_sym (a b : date) : eqb a b = eqb b a.
Proof.
  destruct (eqb b a) eqn:E.
  - apply eqb_eq in E. subst. apply eqb_refl.
  - apply eqb_neq. apply eqb_neq in E. congruence.
Qed.

Lemma existsb_eqb_In (d : date) (l : list date) :
  existsb (eqb d) l = true <-> In d l.
Proof.
  rewrite existsb_exists. split.
  - intros [x [Hx E]]. apply eqb_eq in E. now subst.
  - intros H. exists d. split; [assumption | apply eqb_refl].
Qed.

Lemma in_zrange (lo : Z) (n : nat) (z : Z) :
  In z (zrange lo n) <-> lo <= z < lo + Z.of_nat n.
Proof.
  unfold zrange. rewrite in_map_iff. split.
  - intros [i [<- Hi]]. apply in_seq in Hi. lia.
  - intros H. exists (Z.to_nat (z - lo)). split; [lia |].
    apply in_seq. lia.
Qed.

Lemma calendar_length : List.length calendar = 366%nat.
Proof. reflexivity. Qed.

(** The calendar holds exactly the well-formed dates of the reference year. *)
Lemma in_calendar (d : date) : in_reference_year d = true <-> In d calendar.
Proof.
  unfold calendar. rewrite in_flat_map. split.
  - intros H. unfold in_reference_year, valid in H.
    rewrite !andb_true_iff in H.
    destruct H as [Hy [[[[[_ _] Hm1] Hm2] Hd1] Hd2]].
    apply Z.eqb_eq in Hy. apply Z.leb_le in Hm1, Hm2, Hd1, Hd2.
    destruct d as [y m dd]; cbn [year month day] in *. subst y.
    exists m. split.
    + apply in_zrange. lia.
    + unfold month_days. apply in_map_iff. exists dd. split; [reflexivity |].
      apply in_zrange. lia.
  - intros [m [Hm Hd]]. apply in_zrange in Hm.
    unfold month_days in Hd. apply in_map_iff in Hd.
    destruct Hd as [dd [<- Hdd]]. apply in_zrange in Hdd.
    assert (Hpos : 0 <= days_in_month ARBITRARY_YEAR m).
    { unfold days_in_month.
      destruct (m =? 2); [destruct (is_leap ARBITRARY_YEAR); lia |].
      destruct ((m =? 4) || (m =? 6) || (m =? 9) || (m =? 11)); lia. }
    unfold in_reference_year, valid; cbn [year month day].
    rewrite !andb_true_iff. unfold MINYEAR, MAXYEAR, ARBITRARY_YEAR in *.
    repeat split; first [apply Z.leb_le; lia | apply Z.eqb_eq; reflexivity].
Qed.

Lemma index_lt (d : date) (l : list date) :
  In d l -> (index d l < List.length l)%nat.
Proof.
  induction l as [| x l IH]; simpl; [tauto |].
  intros H. destruct (eqb x d) eqn:E; [lia |].
  apply eqb_neq in E. destruct H as [H | H]; [congruence |].
  specialize (IH H). lia.
Qed.

Lemma nth_index (d def : date) (l : list date) :
  In d l -> nth (index d l) l def = d.
Proof.
  induction l as [| x l IH]; simpl; [tauto |].
  intros H. destruct (eqb x d) eqn:E.
  - now apply eqb_eq.
  - apply eqb_neq in E. destruct H as [H | H]; [congruence | auto].
Qed.

Lemma yday_lt (d : date) : in_reference_year d = true -> (yday d < 366)%nat.
Proof.
  intros H. apply in_calendar in H. apply (index_lt d calendar H).
Qed.

Lemma day_at_yday (d : date) : in_reference_year d = true -> day_at (yday d) = d.
Proof.
  intros H. unfold day_at.
  rewrite Nat.mod_small by now apply yday_lt.
  apply nth_index. now apply in_calendar.
Qed.

(** The three facts below are checked by running through the 366 days. *)
Lemma calendar_scan :
  forallb (fun i => let d := nth i calendar Jan1 in
                    (yday d =? i)%nat
                    && in_reference_year d
                    && match next_state d with
                       | inr d' => eqb d' (day_at (S i))
                       | inl _ => false
                       end)
          (seq 0 366) = true.
Proof. vm_compute. reflexivity. Qed.

Lemma calendar_scan_at (i : nat) :
  (i < 366)%nat ->
  yday (nth i calendar Jan1) = i
  /\ in_reference_year (nth i calendar Jan1) = true
  /\ next_state (nth i calendar Jan1) = inr (day_at (S i)).
Proof.
  intros Hi. pose proof calendar_scan as H.
  rewrite forallb_forall in H. specialize (H i).
  assert (Hin : In i (seq 0 366)) by (apply in_seq; lia).
  specialize (H Hin). cbv zeta in H.
  rewrite !andb_true_iff in H. destruct H as [[H1 H2] H3].
  apply Nat.eqb_eq in H1.
  destruct (next_state (nth i calendar Jan1)) as [e | d'] eqn:E; [discriminate |].
  apply eqb_eq in H3. subst d'. auto.
Qed.

Lemma yday_day_at (i : nat) : yday (day_at i) = (i mod 366)%nat.
Proof.
  unfold day_at. apply calendar_scan_at. apply Nat.mod_upper_bound. lia.
Qed.

Lemma day_at_in_reference_year (i : nat) : in_reference_year (day_at i) = true.
Proof.
  unfold day_at. apply calendar_scan_at. apply Nat.mod_upper_bound. lia.
Qed.

(** The step of the loop is the successor on the cyclic calendar. *)
Lemma next_state_day_at (i : nat) : next_state (day_at i) = inr (day_at (S i)).
Proof.
  unfold day_at at 1.
  destruct (calendar_scan_at (i mod 366)) as [_ [_ H]].
  { apply Nat.mod_upper_bound. lia. }
  rewrite H. f_equal. unfold day_at. f_equal.
  change (S (i mod 366)) with (1 + i mod 366)%nat.
  change (S i) with (1 + i)%nat.
  now rewrite Nat.Div0.add_mod_idemp_r.
Qed.

Lemma next_state_in_year (d : date) :
  in_reference_year d = true -> next_state d = inr (day_at (S (yday d))).
Proof.
  intros H. rewrite <- (day_at_yday d H) at 1. apply next_state_day_at.
Qed.

Lemma yday_inj (a b : date) :
  in_reference_year a = true -> in_reference_year b = true ->
  yday a = yday b -> a = b.
Proof.
  intros Ha Hb H. rewrite <- (day_at_yday a Ha), <- (day_at_yday b Hb).
  now rewrite H.
Qed.

(* ================================================================== *)
(** ** The loop of [active_days] on the reference year *)

Lemma active_days_loop_step (fuel : nat) (state end_ : date) :
  active_days_loop (S fuel) state end_ =
  yield state (if eqb state end_ then ([], Stop)
               else match next_state state with
                    | inl e => ([], Raise e)
                    | inr state' => active_days_loop fuel state' end_
                    end).
Proof.
  unfold next_state. simpl. destruct (eqb state end_); [reflexivity |].
  destruct (add_one_day state); reflexivity.
Qed.

Lemma span_zero (s t : date) :
  in_reference_year s = true -> in_reference_year t = true ->
  span s t = O -> s = t.
Proof.
  intros Hs Ht H. apply yday_inj; try assumption.
  pose proof (yday_lt s Hs). pose proof (yday_lt t Ht).
  unfold span in H. lia.
Qed.

Lemma span_succ (s t : date) (n : nat) :
  in_reference_year s = true -> in_reference_year t = true ->
  span s t = S n -> span (day_at (S (yday s))) t = n.
Proof.
  intros Hs Ht H.
  pose proof (yday_lt s Hs). pose proof (yday_lt t Ht).
  unfold span in *. rewrite yday_day_at. lia.
Qed.

Lemma span_lt (s t : date) : (span s t < 366)%nat.
Proof. unfold span. apply Nat.mod_upper_bound. lia. Qed.

Lemma day_at_shift (a i : nat) :
  day_at (yday (day_at (S a)) + i) = day_at (a + S i).
Proof.
  rewrite yday_day_at. unfold day_at. f_equal.
  rewrite Nat.Div0.add_mod_idemp_l. f_equal. lia.
Qed.

(** With fuel for its length, the loop yields the interval and stops. *)
Lemma active_days_loop_interval (n : nat) :
  forall (fuel : nat) (s t : date),
    in_reference_year s = true -> in_reference_year t = true ->
    span s t = n -> (n < fuel)%nat ->
    active_days_loop fuel s t =
    (map (fun i => day_at (yday s + i)) (seq 0 (S n)), Stop).
Proof.
  induction n as [| n IH]; intros fuel s t Hs Ht Hn Hf;
    (destruct fuel as [| fuel]; [lia |]); rewrite active_days_loop_step.
  - rewrite (span_zero s t Hs Ht Hn), eqb_refl. unfold yield; simpl.
    rewrite Nat.add_0_r, day_at_yday; [reflexivity |].
    now rewrite <- (span_zero s t Hs Ht Hn).
  - destruct (eqb s t) eqn:E.
    { apply eqb_eq in E. subst t. unfold span in Hn.
      pose proof (yday_lt s Hs). lia. }
    rewrite (next_state_in_year s Hs).
    rewrite (IH fuel (day_at (S (yday s))) t); try assumption.
    + unfold yield. cbn [fst snd]. f_equal.
      change (seq 0 (S (S n))) with (0%nat :: seq 1 (S n)).
      rewrite <- seq_shift, map_cons, map_map.
      rewrite Nat.add_0_r, (day_at_yday s Hs). f_equal.
      apply map_ext. intros i. apply day_at_shift.
    + apply day_at_in_reference_year.
    + now apply span_succ.
    + lia.
Qed.

Lemma active_days_loop_stops (fuel : nat) (s t : date) :
  in_reference_year s = true -> in_reference_year t = true ->
  (span s t < fuel)%nat ->
  active_days_loop fuel s t = (interval s t, Stop).
Proof.
  intros Hs Ht Hf. unfold interval.
  now apply active_days_loop_interval.
Qed.

Lemma active_days_dated (fuel : nat) (e : Event) :
  dated e -> (366 <= fuel)%nat -> active_days fuel e = (days e, Stop).
Proof.
  intros [s [t [Hs [Ht [Vs Vt]]]]] Hf. unfold active_days, days.
  rewrite Hs, Ht. apply active_days_loop_stops; try assumption.
  pose proof (span_lt s t). lia.
Qed.

Lemma interval_length (s t : date) : List.length (interval s t) = S (span s t).
Proof. unfold interval. now rewrite length_map, length_seq. Qed.

Lemma in_interval (s t d : date) :
  In d (interval s t) <-> exists i, (i <= span s t)%nat /\ d = day_at (yday s + i).
Proof.
  unfold interval. rewrite in_map_iff. split.
  - intros [i [<- Hi]]. apply in_seq in Hi. exists i. split; [lia | reflexivity].
  - intros [i [Hi ->]]. exists i. split; [reflexivity |]. apply in_seq. lia.
Qed.

Lemma interval_in_reference_year (s t : date) :
  Forall (fun d => in_reference_year d = true) (interval s t).
Proof.
  apply Forall_forall. intros d Hd. apply in_interval in Hd.
  destruct Hd as [i [_ ->]]. apply day_at_in_reference_year.
Qed.

Lemma day_at_inj (a i j : nat) :
  (i < 366)%nat -> (j < 366)%nat ->
  day_at (a + i) = day_at (a + j) -> i = j.
Proof.
  intros Hi Hj H. apply (f_equal yday) in H.
  rewrite !yday_day_at in H. lia.
Qed.

Lemma NoDup_map_seq (f : nat -> date) (n : nat) :
  (forall i j, (i < n)%nat -> (j < n)%nat -> f i = f j -> i = j) ->
  NoDup (map f (seq 0 n)).
Proof.
  intros Hf. apply (proj2 (NoDup_nth (map f (seq 0 n)) (f O))).
  rewrite length_map, length_seq. intros i j Hi Hj H.
  rewrite !(map_nth f), !seq_nth in H by assumption.
  simpl in H. now apply Hf.
Qed.

(** The enumeration never repeats a day. *)
Lemma interval_NoDup (s t : date) : NoDup (interval s t).
Proof.
  unfold interval. apply NoDup_map_seq. intros i j Hi Hj H.
  pose proof (span_lt s t).
  apply (day_at_inj (yday s)); [lia | lia | assumption].
Qed.

Lemma days_NoDup (e : Event) : NoDup (days e).
Proof.
  unfold days. destruct (start_date e), (end_date e);
    try apply NoDup_nil. apply interval_NoDup.
Qed.

Lemma interval_incl_calendar (s t : date) : incl (interval s t) calendar.
Proof.
  intros d Hd. apply in_calendar.
  pose proof (interval_in_reference_year s t) as H.
  rewrite Forall_forall in H. now apply H.
Qed.

Lemma year_in_reference_year (d : date) :
  in_reference_year d = true -> year d = ARBITRARY_YEAR.
Proof.
  unfold in_reference_year. rewrite andb_true_iff, Z.eqb_eq. tauto.
Qed.

(** An interval whose end comes earlier in the year than its start is
    the tail of the calendar from the start, then its head up to the end. *)
Lemma interval_wraps (s t : date) :
  in_reference_year s = true -> in_reference_year t = true ->
  (yday t < yday s)%nat ->
  interval s t = skipn (yday s) calendar ++ firstn (S (yday t)) calendar.
Proof.
  intros Hs Ht Hlt. pose proof (yday_lt s Hs) as Bs.
  assert (Hspan : span s t = (yday t + 366 - yday s)%nat).
  { unfold span. apply Nat.mod_small. lia. }
  apply (nth_ext _ _ Jan1 Jan1).
  - rewrite interval_length, length_app, length_skipn, length_firstn,
      calendar_length. lia.
  - intros n Hn. rewrite interval_length in Hn. unfold interval.
    rewrite (nth_indep _ Jan1 (day_at (yday s + 0))), (map_nth (fun i => day_at (yday s + i)))
      by (rewrite length_map, length_seq; lia).
    rewrite seq_nth by lia. simpl (0 + n)%nat.
    destruct (Nat.lt_ge_cases n (366 - yday s)) as [Hlo | Hhi].
    + rewrite app_nth1 by (rewrite length_skipn, calendar_length; lia).
      rewrite nth_skipn. unfold day_at. now rewrite Nat.mod_small by lia.
    + rewrite app_nth2 by (rewrite length_skipn, calendar_length; lia).
      rewrite length_skipn, calendar_length.
      rewrite nth_firstn.
      replace (n - (366 - yday s) <? S (yday t))%nat with true
        by (symmetry; apply Nat.ltb_lt; lia).
      unfold day_at. f_equal.
      replace (yday s + n)%nat with ((n - (366 - yday s)) + 1 * 366)%nat by lia.
      rewrite Nat.Div0.mod_add. apply Nat.mod_small. lia.
Qed.

Lemma active_days_loop_raises (fuel : nat) :
  forall (s t : date) (ds : list date) (e : exn),
    active_days_loop fuel s t = (ds, Raise e) ->
    e = OverflowError \/ e = ValueError.
Proof.
  induction fuel as [| fuel IH]; intros s t ds e H; simpl in H.
  - discriminate.
  - unfold yield in H. destruct (eqb s t); [simpl in H; discriminate |].
    destruct (add_one_day s) as [x | next] eqn:Ea.
    + unfold add_one_day in Ea.
      destruct (day s <? _); [discriminate |].
      destruct (month s <? 12); [discriminate |].
      destruct (year s <? MAXYEAR); [discriminate |].
      simpl in H. left. congruence.
    + destruct (replace_year next ARBITRARY_YEAR) as [x | s'] eqn:Er.
      * unfold replace_year in Er. cbv zeta in Er.
        destruct (valid _); [discriminate |].
        simpl in H. right. congruence.
      * destruct (active_days_loop fuel s' t) as [ds' r] eqn:El.
        simpl in H. injection H as _ Hr. subst r.
        now apply (IH s' t ds').
Qed.

Lemma usage_error_without_dates (fuel : nat) (e : Event) (msg : string) :
  snd (active_days fuel e) = Raise (RuntimeError msg) ->
  start_date e = None \/ end_date e = None.
Proof.
  unfold active_days.
  destruct (start_date e) as [s |], (end_date e) as [t |]; auto.
  intros H.
  destruct (active_days_loop fuel s t) as [ds r] eqn:E. simpl in H. subst r.
  apply active_days_loop_raises in E. destruct E; discriminate.
Qed.

(* ================================================================== *)
(** ** Properties of [active_days] *)

(** C6.  An event whose start date equals its end date (both set) is
    active on exactly one day: the enumeration yields that date and stops. *)
Theorem C6_single_day (fuel : nat) (e : Event) (d : date) :
  start_date e = Some d -> end_date e = Some d ->
  active_days (S fuel) e = ([d], Stop).
Proof.
  intros Hs Ht. unfold active_days. rewrite Hs, Ht.
  rewrite active_days_loop_step, eqb_refl. reflexivity.
Qed.

Lemma C6_single_day_witness :
  active_days 1 (dated_event "leap-day" (md 2 29) (md 2 29)) = ([md 2 29], Stop).
Proof.
  apply (C6_single_day 0 (dated_event "leap-day" (md 2 29) (md 2 29)) (md 2 29));
    reflexivity.
Defined.

(** C8.  For an event with both dates set, in the reference year, the
    enumeration terminates: it yields a sequence of at most 366 days and
    stops, and every invocation with enough fuel gives that same sequence. *)
Theorem C8_finite_and_repeatable (e : Event) :
  dated e ->
  exists ds : list date,
    (List.length ds <= 366)%nat
    /\ forall fuel, (366 <= fuel)%nat -> active_days fuel e = (ds, Stop).
Proof.
  intros H. exists (days e). split.
  - destruct H as [s [t [Hs [Ht _]]]]. unfold days. rewrite Hs, Ht.
    rewrite interval_length. pose proof (span_lt s t). lia.
  - intros fuel Hf. now apply active_days_dated.
Qed.

Lemma dated_dated_event (n : string) (s t : date) :
  in_reference_year s = true -> in_reference_year t = true ->
  dated (dated_event n s t).
Proof. intros Hs Ht. exists s, t. auto. Qed.

Lemma C8_finite_and_repeatable_witness :
  exists ds : list date,
    (List.length ds <= 366)%nat
    /\ forall fuel, (366 <= fuel)%nat ->
         active_days fuel (dated_event "winter" (md 12 20) (md 1 5)) = (ds, Stop).
Proof.
  apply (C8_finite_and_repeatable (dated_event "winter" (md 12 20) (md 1 5))).
  apply dated_dated_event; reflexivity.
Defined.

(** C4.  A full-year range, whose end date is the day just before its
    start date on the cyclic calendar, yields each of the 366 days of the
    reference year exactly once. *)
Theorem C4_full_year (fuel : nat) (e : Event) (s t : date) :
  start_date e = Some s -> end_date e = Some t ->
  in_reference_year s = true -> in_reference_year t = true ->
  day_at (S (yday t)) = s ->
  (366 <= fuel)%nat ->
  exists ds : list date,
    active_days fuel e = (ds, Stop)
    /\ List.length ds = 366%nat
    /\ NoDup ds
    /\ Permutation ds calendar.
Proof.
  intros Hs Ht Vs Vt Hprev Hf. exists (interval s t).
  assert (Hspan : span s t = 365%nat).
  { pose proof (yday_lt t Vt). unfold span. rewrite <- Hprev, yday_day_at. lia. }
  assert (Hlen : List.length (interval s t) = 366%nat).
  { rewrite interval_length, Hspan. reflexivity. }
  repeat split.
  - unfold active_days. rewrite Hs, Ht.
    apply active_days_loop_stops; try assumption. lia.
  - exact Hlen.
  - apply interval_NoDup.
  - apply NoDup_Permutation_bis.
    + apply interval_NoDup.
    + rewrite Hlen, calendar_length. lia.
    + apply interval_incl_calendar.
Qed.

Lemma C4_full_year_witness :
  exists ds : list date,
    active_days 366 (dated_event "all-year" (md 3 1) (md 2 29)) = (ds, Stop)
    /\ List.length ds = 366%nat
    /\ NoDup ds
    /\ Permutation ds calendar.
Proof.
  apply (C4_full_year 366 (dated_event "all-year" (md 3 1) (md 2 29))
                      (md 3 1) (md 2 29));
    reflexivity.
Defined.

(** C5.  A range that wraps past the end of the year (its end date comes
    earlier in the year than its start date) yields the days from the start
    date through Dec 31, then the days from Jan 1 through the end date, all
    of them in the reference year. *)
Theorem C5_wraps_year_end (fuel : nat) (e : Event) (s t : date) :
  start_date e = Some s -> end_date e = Some t ->
  in_reference_year s = true -> in_reference_year t = true ->
  (yday t < yday s)%nat ->
  (366 <= fuel)%nat ->
  active_days fuel e
  = (skipn (yday s) calendar ++ firstn (S (yday t)) calendar, Stop)
  /\ Forall (fun d => year d = ARBITRARY_YEAR) (fst (active_days fuel e)).
Proof.
  intros Hs Ht Vs Vt Hlt Hf.
  assert (H : active_days fuel e = (interval s t, Stop)).
  { unfold active_days. rewrite Hs, Ht.
    apply active_days_loop_stops; try assumption.
    pose proof (span_lt s t). lia. }
  split.
  - rewrite H. now rewrite interval_wraps.
  - rewrite H. cbn [fst].
    eapply Forall_impl; [| apply interval_in_reference_year].
    intros d. apply year_in_reference_year.
Qed.

(** The example of C5: Dec 30 to Jan 2 is exactly four days. *)
Lemma C5_wraps_year_end_witness :
  active_days 366 (dated_event "new-year" (md 12 30) (md 1 2))
  = ([md 12 30; md 12 31; md 1 1; md 1 2], Stop).
Proof.
  apply (C5_wraps_year_end 366 (dated_event "new-year" (md 12 30) (md 1 2))
                           (md 12 30) (md 1 2));
    try reflexivity; vm_compute; lia.
Defined.

(** C9.  On an event lacking a date, as a fallback event is, [active_days]
    fails at once with its usage error; that error is a [RuntimeError],
    which a handler for [Misconfiguration] does not catch; and the usage
    error arises in no other case. *)
Theorem C9_usage_error (fuel : nat) (e : Event) :
  (lacks_dates e = true ->
   active_days fuel e = ([], Raise (RuntimeError usage_message)))
  /\ (forall msg, snd (active_days fuel e) = Raise (RuntimeError msg) ->
                  lacks_dates e = true)
  /\ is_misconfiguration (RuntimeError usage_message) = false.
Proof.
  repeat split.
  - unfold lacks_dates, active_days.
    destruct (start_date e), (end_date e); (reflexivity || discriminate).
  - intros msg H. apply usage_error_without_dates in H.
    unfold lacks_dates. destruct H as [-> | ->]; [reflexivity |].
    destruct (start_date e); reflexivity.
Qed.

Lemma C9_usage_error_witness :
  active_days 366 (fallback_event "evergreen")
  = ([], Raise (RuntimeError usage_message)).
Proof.
  apply (C9_usage_error 366 (fallback_event "evergreen")). reflexivity.
Defined.

(** C10.  The usage error arises if and only if one of the two dates is
    [None].  The fallback flag is not looked at: changing it changes
    nothing, so a non-fallback event with a date missing gets the usage
    error, and an event flagged fallback that carries both dates is
    enumerated like any other. *)
Theorem C10_flag_not_inspected (fuel : nat) (e : Event) :
  ((exists msg, snd (active_days fuel e) = Raise (RuntimeError msg))
   <-> start_date e = None \/ end_date e = None)
  /\ (forall b, active_days fuel (with_fallback b e) = active_days fuel e)
  /\ (fallback e = false -> start_date e = None \/ end_date e = None ->
      active_days fuel e = ([], Raise (RuntimeError usage_message)))
  /\ (fallback e = true -> dated e -> (366 <= fuel)%nat ->
      active_days fuel e = (days e, Stop)).
Proof.
  split; [| split; [| split]].
  - split.
    + intros [msg H]. now apply usage_error_without_dates in H.
    + intros H. exists usage_message. unfold active_days.
      destruct H as [-> | ->]; [reflexivity |].
      destruct (start_date e); reflexivity.
  - intros b. reflexivity.
  - intros _ H. unfold active_days.
    destruct H as [-> | ->]; [reflexivity |].
    destruct (start_date e); reflexivity.
  - intros _ Hd Hf. now apply active_days_dated.
Qed.

Lemma C10_flag_not_inspected_witness :
  active_days 366 (mkEvent "half" false (Some (md 7 10)) None "No end date.")
  = ([], Raise (RuntimeError usage_message))
  /\ active_days 366 (mkEvent "flagged" true (Some (md 7 10)) (Some (md 7 12))
                              "Fallback, with dates.")
     = ([md 7 10; md 7 11; md 7 12], Stop).
Proof.
  split.
  - apply (C10_flag_not_inspected 366
             (mkEvent "half" false (Some (md 7 10)) None "No end date."));
      [reflexivity | right; reflexivity].
  - apply (C10_flag_not_inspected 366
             (mkEvent "flagged" true (Some (md 7 10)) (Some (md 7 12))
                      "Fallback, with dates."));
      [reflexivity | | apply Nat.le_refl].
    exists (md 7 10), (md 7 12). repeat split; reflexivity.
Defined.

(* ================================================================== *)
(** ** The schedule of [find_collisions] *)

Lemma keys_schedule_append (s : schedule) (d : date) (e : Event) :
  map fst (schedule_append s d e) = add_key (map fst s) d.
Proof.
  unfold add_key. induction s as [| [k evs] rest IH]; simpl; [reflexivity |].
  rewrite (eqb_sym d k). destruct (eqb k d); simpl; [reflexivity |].
  rewrite IH. destruct (existsb (eqb d) (map fst rest)); reflexivity.
Qed.

Lemma lookup_schedule_append (s : schedule) (d d' : date) (e : Event) :
  lookup (schedule_append s d e) d'
  = if eqb d d' then lookup s d' ++ [e] else lookup s d'.
Proof.
  induction s as [| [k evs] rest IH]; simpl.
  - destruct (eqb d d'); reflexivity.
  - destruct (eqb k d) eqn:Ekd; simpl.
    + apply eqb_eq in Ekd. subst k. destruct (eqb d d'); reflexivity.
    + rewrite IH. destruct (eqb d d') eqn:Edd; [| reflexivity].
      apply eqb_eq in Edd. subst d'. now rewrite Ekd.
Qed.

Lemma keys_add_days (ds : list date) (e : Event) :
  forall s, map fst (add_days s ds e) = fold_left add_key ds (map fst s).
Proof.
  unfold add_days. induction ds as [| d ds IH]; intros s; simpl; [reflexivity |].
  now rewrite IH, keys_schedule_append.
Qed.

Lemma lookup_add_days (ds : list date) (e : Event) (d : date) :
  NoDup ds ->
  forall s, lookup (add_days s ds e) d
            = lookup s d ++ (if existsb (eqb d) ds then [e] else []).
Proof.
  unfold add_days. induction ds as [| x ds IH]; intros Hnd s; simpl.
  - now rewrite app_nil_r.
  - inversion Hnd as [| ? ? Hx Hds]; subst.
    rewrite (IH Hds), lookup_schedule_append, (eqb_sym d x).
    destruct (eqb x d) eqn:E; simpl; [| reflexivity].
    apply eqb_eq in E. subst x.
    destruct (existsb (eqb d) ds) eqn:Ex; [| now rewrite app_nil_r].
    apply existsb_eqb_In in Ex. contradiction.
Qed.

Lemma fill_schedule_dated (fuel : nat) (events : list Event) :
  (366 <= fuel)%nat -> Forall dated events ->
  forall s, fill_schedule fuel events s = Return (filled events s).
Proof.
  intros Hf. induction 1 as [| e events He _ IH]; intros s; simpl.
  - reflexivity.
  - rewrite (active_days_dated fuel e He Hf). apply IH.
Qed.

Lemma lookup_filled (events : list Event) (d : date) :
  forall s, lookup (filled events s) d = lookup s d ++ claimants d events.
Proof.
  unfold filled, claimants.
  induction events as [| e events IH]; intros s; simpl.
  - now rewrite app_nil_r.
  - rewrite IH, (lookup_add_days _ _ _ (days_NoDup e)), <- app_assoc.
    destruct (existsb (eqb d) (days e)); reflexivity.
Qed.

Lemma keys_filled (events : list Event) :
  forall s, map fst (filled events s)
            = fold_left add_key (flat_map days events) (map fst s).
Proof.
  unfold filled. induction events as [| e events IH]; intros s; simpl.
  - reflexivity.
  - now rewrite IH, keys_add_days, fold_left_app.
Qed.

Lemma NoDup_add_key (ks : list date) (d : date) :
  NoDup ks -> NoDup (add_key ks d).
Proof.
  intros H. unfold add_key. destruct (existsb (eqb d) ks) eqn:E; [assumption |].
  apply NoDup_app; repeat split; try assumption.
  - constructor; [simpl; tauto | constructor].
  - intros x Hx [<- | []]. apply existsb_eqb_In in Hx. congruence.
Qed.

Lemma NoDup_fold_add_key (l : list date) :
  forall ks, NoDup ks -> NoDup (fold_left add_key l ks).
Proof.
  induction l as [| d l IH]; intros ks H; simpl; [assumption |].
  apply IH. now apply NoDup_add_key.
Qed.

Lemma lookup_In (s : schedule) (d : date) (evs : list Event) :
  NoDup (map fst s) -> In (d, evs) s -> lookup s d = evs.
Proof.
  induction s as [| [k v] rest IH]; simpl; [tauto |].
  intros Hnd [H | H].
  - injection H as -> ->. now rewrite eqb_refl.
  - inversion Hnd as [| ? ? Hk Hrest]; subst.
    destruct (eqb k d) eqn:E; [| now apply IH].
    apply eqb_eq in E. subst k. exfalso. apply Hk.
    apply in_map_iff. now exists (d, evs).
Qed.

Lemma lookup_key (s : schedule) (d : date) :
  lookup s d <> [] -> In d (map fst s).
Proof.
  induction s as [| [k v] rest IH]; simpl; [congruence |].
  destruct (eqb k d) eqn:E.
  - apply eqb_eq in E. auto.
  - auto.
Qed.

Lemma keys_filter (p : date * list Event -> bool) (q : date -> bool)
      (s : schedule) :
  (forall kv, In kv s -> p kv = q (fst kv)) ->
  map fst (filter p s) = filter q (map fst s).
Proof.
  induction s as [| kv rest IH]; intros H; simpl; [reflexivity |].
  rewrite (H kv (or_introl eq_refl)).
  destruct (q (fst kv)); simpl; rewrite IH; auto;
    intros x Hx; apply H; now right.
Qed.

(** What [find_collisions] returns for dated events: the entries of the
    filled schedule with more than one claimant. *)
Lemma find_collisions_dated (fuel : nat) (events : list Event) :
  (366 <= fuel)%nat -> Forall dated events ->
  find_collisions fuel events
  = Return (filter (fun kv => (1 <? List.length (snd kv))%nat) (filled events []))
  /\ NoDup (map fst (filled events []))
  /\ (forall d, lookup (filled events []) d = claimants d events).
Proof.
  intros Hf Hd. unfold find_collisions.
  rewrite (fill_schedule_dated fuel events Hf Hd). repeat split.
  - rewrite keys_filled. apply NoDup_fold_add_key. constructor.
  - intros d. now rewrite lookup_filled.
Qed.

Lemma keys_collisions (events : list Event) :
  map fst (filter (fun kv => (1 <? List.length (snd kv))%nat) (filled events []))
  = filter (fun d => (1 <? List.length (claimants d events))%nat)
           (first_occurrences (flat_map days events)).
Proof.
  assert (Hnd : NoDup (map fst (filled events []))).
  { rewrite keys_filled. apply NoDup_fold_add_key. constructor. }
  rewrite (keys_filter _ (fun d => (1 <? List.length (claimants d events))%nat)).
  - now rewrite keys_filled.
  - intros [d evs] Hin. simpl.
    rewrite <- (lookup_In _ _ _ Hnd Hin), lookup_filled. reflexivity.
Qed.

(* ================================================================== *)
(** ** Properties of [find_collisions] *)

(** C1.  For dated events, [find_collisions] returns a mapping whose keys
    are exactly the days claimed by two or more events, a day being claimed
    by an event when [active_days] yields it for that event; the value of a
    key is the list of the events claiming that day, in input order, each
    of them once when the events of the input differ from one another. *)
Theorem C1_find_collisions (fuel : nat) (events : list Event) :
  (366 <= fuel)%nat -> Forall dated events ->
  Forall (fun e => active_days fuel e = (days e, Stop)) events
  /\ exists collisions : schedule,
    find_collisions fuel events = Return collisions
    /\ NoDup (map fst collisions)
    /\ (forall day, In day (map fst collisions)
                    <-> (2 <= List.length (claimants day events))%nat)
    /\ (forall day evs, In (day, evs) collisions -> evs = claimants day events)
    /\ (NoDup events ->
        forall day evs, In (day, evs) collisions -> NoDup evs).
Proof.
  intros Hf Hd. split.
  { eapply Forall_impl; [| exact Hd].
    intros e He. now apply active_days_dated. }
  destruct (find_collisions_dated fuel events Hf Hd) as [Hfc [Hnd Hlk]].
  eexists. split; [exact Hfc |].
  assert (Hval : forall day evs,
             In (day, evs)
                (filter (fun kv => (1 <? List.length (snd kv))%nat) (filled events []))
             -> evs = claimants day events).
  { intros day evs Hin. apply filter_In in Hin. destruct Hin as [Hin _].
    rewrite <- Hlk. symmetry. now apply lookup_In. }
  split; [| split; [| split]].
  - rewrite keys_collisions. apply NoDup_filter.
    unfold first_occurrences. apply NoDup_fold_add_key. constructor.
  - intros d. rewrite keys_collisions, filter_In, Nat.ltb_lt. split.
    + intros [_ Hlen]. lia.
    + intros Hlen. split; [| lia].
      unfold first_occurrences.
      change (@nil date) with (map fst (@nil (date * list Event))).
      rewrite <- keys_filled. apply lookup_key. rewrite Hlk.
      destruct (claimants d events); simpl in *; [lia | discriminate].
  - exact Hval.
  - intros Hev day evs Hin. rewrite (Hval day evs Hin).
    unfold claimants. now apply NoDup_filter.
Qed.

Lemma C1_find_collisions_witness :
  find_collisions 366 [event_A; event_B]
  = Return (map (fun d => (md 1 d, [event_A; event_B])) [5; 6; 7; 8; 9; 10])
  /\ Forall (fun e => active_days 366 e = (days e, Stop)) [event_A; event_B]
  /\ exists collisions : schedule,
      find_collisions 366 [event_A; event_B] = Return collisions
      /\ NoDup (map fst collisions)
      /\ (forall day, In day (map fst collisions)
                      <-> (2 <= List.length (claimants day [event_A; event_B]))%nat)
      /\ (forall day evs, In (day, evs) collisions
                          -> evs = claimants day [event_A; event_B])
      /\ (NoDup [event_A; event_B] ->
          forall day evs, In (day, evs) collisions -> NoDup evs).
Proof.
  split; [vm_compute; reflexivity |].
  apply (C1_find_collisions 366 [event_A; event_B]).
  - apply Nat.le_refl.
  - repeat constructor; apply dated_dated_event; reflexivity.
Defined.

(* ================================================================== *)
(** ** Properties of [check_date_configuration] *)

Lemma fill_schedule_raises (fuel : nat) (events : list Event) (x : exn) :
  forall s, fill_schedule fuel events s = Raised x ->
            is_misconfiguration x = false.
Proof.
  induction events as [| e events IH]; intros s H; simpl in H; [discriminate |].
  destruct (active_days fuel e) as [ds r] eqn:E. destruct r as [| y |].
  - now apply (IH _ H).
  - injection H as ->. unfold active_days in E.
    destruct (start_date e) as [a |], (end_date e) as [b |];
      try (injection E as _ <-; reflexivity).
    apply active_days_loop_raises in E. destruct E; subst; reflexivity.
  - discriminate.
Qed.

Lemma find_collisions_raises (fuel : nat) (events : list Event) (x : exn) :
  find_collisions fuel events = Raised x -> is_misconfiguration x = false.
Proof.
  unfold find_collisions.
  destruct (fill_schedule fuel events []) as [s | y |] eqn:E; try discriminate.
  intros H. injection H as ->. now apply (fill_schedule_raises _ _ _ _ E).
Qed.

Lemma check_date_configuration_one_fallback (fuel : nat) (events : list Event) :
  List.length (filter fallback events) = 1%nat ->
  check_date_configuration fuel events
  = match find_collisions fuel (filter (fun e => negb (fallback e)) events) with
    | Return [] => Return tt
    | Return collisions => Raised (Misconfiguration (collision_message collisions))
    | Raised e => Raised e
    | Diverged => Diverged
    end.
Proof.
  intros H. unfold check_date_configuration.
  destruct (filter fallback events) as [| f [| g rest]]; simpl in H;
    try discriminate. reflexivity.
Qed.

Lemma not_cardinality_failure_with_one (fuel : nat) (events : list Event) :
  List.length (filter fallback events) = 1%nat ->
  ~ cardinality_failure (check_date_configuration fuel events).
Proof.
  intros H. rewrite (check_date_configuration_one_fallback fuel events H).
  destruct (find_collisions fuel _) as [[| kv c] | x |] eqn:E;
    intros [F | [fbs F]];
    (* a return is no failure, and a collision report starts with the
       letter E, the two messages on fallback events with T *)
    try discriminate F;
    (* what the enumeration raises is no [Misconfiguration] *)
    injection F as F; apply find_collisions_raises in E; subst x;
    discriminate E.
Qed.

(** C3.  [check_date_configuration] fails on the number of fallback
    events if and only if that number is not 1.  With none, the message says
    that there is no fallback event; with two or more, it lists the names of
    all of them.  Colliding dates change nothing to this: the failure is
    decided before the dates are looked at. *)
Theorem C3_fallback_cardinality (fuel : nat) (events : list Event) :
  (cardinality_failure (check_date_configuration fuel events)
   <-> List.length (filter fallback events) <> 1%nat)
  /\ (List.length (filter fallback events) = 0%nat ->
      check_date_configuration fuel events
      = Raised (Misconfiguration "There is no fallback event"))
  /\ ((2 <= List.length (filter fallback events))%nat ->
      check_date_configuration fuel events
      = Raised (Misconfiguration
                  ("There are multiple fallback events: "
                   ++ join ", " (map name (filter fallback events))
                   ++ " (must be exactly 1)")%string)).
Proof.
  assert (H0 : List.length (filter fallback events) = 0%nat ->
               check_date_configuration fuel events
               = Raised (Misconfiguration no_fallback_message)).
  { intros H. unfold check_date_configuration.
    destruct (filter fallback events); [reflexivity | discriminate]. }
  assert (H2 : (2 <= List.length (filter fallback events))%nat ->
               check_date_configuration fuel events
               = Raised (Misconfiguration
                           (multiple_fallback_message (filter fallback events)))).
  { intros H. unfold check_date_configuration.
    destruct (filter fallback events) as [| f [| g rest]] eqn:E;
      simpl in H; try lia. reflexivity. }
  split; [| split; assumption].
  split.
  - intros F H1. now apply (not_cardinality_failure_with_one fuel events H1).
  - intros H. destruct (List.length (filter fallback events)) as [| [| n]] eqn:E.
    + left. now apply H0.
    + congruence.
    + right. exists (filter fallback events). apply H2. lia.
Qed.

(** No fallback event, and two events that collide: the failure is the one
    on the fallback events; with two fallback events likewise. *)
Lemma C3_fallback_cardinality_witness :
  check_date_configuration 366 [event_A; event_B]
  = Raised (Misconfiguration "There is no fallback event")
  /\ check_date_configuration 366
       [fallback_event "X"; event_A; fallback_event "Y"; event_B]
     = Raised (Misconfiguration
                 "There are multiple fallback events: X, Y (must be exactly 1)").
Proof.
  split.
  - apply (C3_fallback_cardinality 366 [event_A; event_B]). reflexivity.
  - apply (C3_fallback_cardinality 366
             [fallback_event "X"; event_A; fallback_event "Y"; event_B]).
    apply Nat.le_refl.
Defined.

(** C2, as stated, fails.  For the fallback event and the events A (Mar 5),
    B (Mar 1) and C (Mar 1 to Mar 5) the report has the line of March 05
    before the line of March 01: the days are in the order in which they
    were first claimed, not in calendar order. *)
Lemma C2_counterexample :
  check_date_configuration 366 spring
  = Raised (Misconfiguration
              ("Event collision detected:" ++ nl
               ++ "March 05: A, C" ++ nl
               ++ "March 01: B, C")%string)
  /\ exists collisions : schedule,
      find_collisions 366 (non_fallback spring) = Return collisions
      /\ map fst collisions = [md 3 5; md 3 1]
      /\ calendar_sorted (map fst collisions) = false.
Proof.
  split; [vm_compute; reflexivity |].
  eexists. split; [vm_compute; reflexivity |].
  split; reflexivity.
Qed.

(** C2, amended.  With exactly one fallback event and dated events
    otherwise, the report of [check_date_configuration] has one line per
    colliding day, in the order in which the days were first claimed (events
    in input order, the days of an event in the order of its enumeration);
    a line is the day as [strftime("%B %d")] renders it (month name and
    two-digit day), a colon, and the names of the contending events joined
    by commas.  Without a colliding
    day the check returns. *)
Theorem C2_report_in_claim_order (fuel : nat) (events : list Event) :
  (366 <= fuel)%nat ->
  List.length (filter fallback events) = 1%nat ->
  Forall dated (non_fallback events) ->
  exists collisions : schedule,
    find_collisions fuel (non_fallback events) = Return collisions
    /\ map fst collisions
       = filter (fun d => (1 <? List.length (claimants d (non_fallback events)))%nat)
                (first_occurrences (flat_map days (non_fallback events)))
    /\ check_date_configuration fuel events
       = match collisions with
         | [] => Return tt
         | _ :: _ =>
             Raised (Misconfiguration
                       ("Event collision detected:" ++ nl
                        ++ join nl
                             (map (fun kv =>
                                     (strftime_B_d (fst kv) ++ ": "
                                      ++ join ", " (map name (snd kv)))%string)
                                  collisions))%string)
         end.
Proof.
  intros Hf H1 Hd.
  destruct (find_collisions_dated fuel (non_fallback events) Hf Hd) as [Hfc _].
  eexists. split; [exact Hfc |]. split; [apply keys_collisions |].
  rewrite (check_date_configuration_one_fallback fuel events H1).
  fold (non_fallback events). rewrite Hfc.
  destruct (filter _ (filled (non_fallback events) [])); reflexivity.
Qed.

Lemma C2_report_in_claim_order_witness :
  exists collisions : schedule,
    find_collisions 366 (non_fallback spring) = Return collisions
    /\ map fst collisions
       = filter (fun d => (1 <? List.length (claimants d (non_fallback spring)))%nat)
                (first_occurrences (flat_map days (non_fallback spring)))
    /\ check_date_configuration 366 spring
       = match collisions with
         | [] => Return tt
         | _ :: _ =>
             Raised (Misconfiguration
                       ("Event collision detected:" ++ nl
                        ++ join nl
                             (map (fun kv =>
                                     (strftime_B_d (fst kv) ++ ": "
                                      ++ join ", " (map name (snd kv)))%string)
                                  collisions))%string)
         end.
Proof.
  apply (C2_report_in_claim_order 366 spring).
  - apply Nat.le_refl.
  - reflexivity.
  - repeat constructor; apply dated_dated_event; reflexivity.
Defined.

(* ================================================================== *)
(** ** Properties of [make_event] *)

Section MakeEventFacts.

Variable strptime : string -> string -> string + date.

(** The run of [make_event] on a directory that passes the checks on
    assets and description, from the reading of the fallback flag on. *)
Lemma make_event_complete (name : string) (from_dir : directory)
      (attrs : attributes) (description : string) :
  complete from_dir attrs description ->
  make_event strptime name from_dir
  = match fallback_attribute attrs with
    | VBool true => Return (mkEvent name true None None description)
    | VBool false =>
        let missing :=
          filter (fun k => match get attrs k with
                           | None => true
                           | Some _ => false
                           end)
                 ["start_date"%string; "end_date"%string] in
        let missing_dates :=
          if end_date_first from_dir then rev missing else missing in
        match missing_dates with
        | _ :: _ =>
            Raised (Misconfiguration
                      ("Non-fallback event must have attributes: "
                       ++ join ", " missing_dates)%string)
        | [] =>
            match parse_date strptime "start_date" attrs with
            | Return start_date =>
                match parse_date strptime "end_date" attrs with
                | Return end_date =>
                    Return (mkEvent name false (Some start_date)
                                    (Some end_date) description)
                | Raised e => Raised e
                | Diverged => Diverged
                end
            | Raised e => Raised e
            | Diverged => Diverged
            end
        end
    | _ => Raised (Misconfiguration "Value under 'fallback' key must be a boolean")
    end.
Proof.
  intros [H1 [H2 [H3 [[icons [H4 Hi]] [[banners [H5 Hb]] [H6 [H7 H8]]]]]]].
  unfold make_event, fallback_attribute.
  rewrite H1, H2, H3, H4, H5, H6, H7. simpl.
  destruct icons; [congruence |]. destruct banners; [congruence |].
  apply Nat.leb_le in H8. rewrite H8. reflexivity.
Qed.

(** Whatever the directory holds, [make_event] returns a well-formed
    event, raises [Misconfiguration], or lets through the [OSError] of one
    of the two listings. *)
Lemma make_event_sound (name : string) (from_dir : directory) :
  match make_event strptime name from_dir with
  | Return e => well_formed e
  | Raised x =>
      is_misconfiguration x = true
      \/ exists msg, x = OSError msg
                     /\ (server_icons_files from_dir = inl msg
                         \/ banners_files from_dir = inl msg)
  | Diverged => False
  end.
Proof.
  unfold make_event.
  destruct (negb (is_empty _)); [now left |].
  destruct (server_icons_files from_dir) as [msg | icons];
    [right; exists msg; auto |].
  destruct (banners_files from_dir) as [msg | banners];
    [right; exists msg; auto |].
  destruct icons; [now left |]. destruct banners; [now left |].
  destruct (meta_parsed from_dir) as [exc | [attrs description]]; [now left |].
  destruct (is_empty description); [now left |].
  destruct (negb (String.length description <=? 2048)%nat); [now left |].
  cbv zeta.
  destruct (match get attrs "fallback" with Some v => v | None => VBool false end)
    as [[|] | |]; [left; repeat split | | now left | now left].
  unfold parse_date. cbn [filter].
  destruct (get attrs "start_date") as [v |], (get attrs "end_date") as [w |];
    try (destruct (end_date_first from_dir); now left).
  cbn [rev app]. destruct (end_date_first from_dir).
  - destruct (strptime _ _); [now left |].
    destruct (strptime _ _); [now left |].
    right. repeat split; discriminate.
  - destruct (strptime _ _); [now left |].
    destruct (strptime _ _); [now left |].
    right. repeat split; discriminate.
Qed.


(** The run of [make_event] when both date attributes are present. *)
Lemma make_event_both_dates (name : string) (from_dir : directory)
      (attrs : attributes) (description : string) (v w : value) :
  complete from_dir attrs description ->
  fallback_attribute attrs = VBool false ->
  get attrs "start_date" = Some v -> get attrs "end_date" = Some w ->
  make_event strptime name from_dir
  = match strptime (py_str v ++ " 2020")%string "%B %d %Y" with
    | inl exc =>
        Raised (Misconfiguration
                  ("Attribute 'start_date' with value '" ++ py_str v
                   ++ "' failed to parse: " ++ exc)%string)
    | inr s =>
        match strptime (py_str w ++ " 2020")%string "%B %d %Y" with
        | inl exc =>
            Raised (Misconfiguration
                      ("Attribute 'end_date' with value '" ++ py_str w
                       ++ "' failed to parse: " ++ exc)%string)
        | inr t => Return (mkEvent name false (Some s) (Some t) description)
        end
    end.
Proof.
  intros Hc Hfb Hs He.
  rewrite (make_event_complete name from_dir attrs description Hc).
  rewrite Hfb. cbv zeta. cbn [filter]. rewrite Hs, He.
  replace (if end_date_first from_dir then rev [] else [])
    with (@nil string) by (destruct (end_date_first from_dir); reflexivity).
  unfold parse_date. rewrite Hs, He.
  change (" " ++ str_of_Z ARBITRARY_YEAR)%string with " 2020"%string.
  change date_fmt with "%B %d %Y"%string.
  destruct (strptime (py_str v ++ " 2020")%string "%B %d %Y") as [exc | s];
    [reflexivity |].
  destruct (strptime (py_str w ++ " 2020")%string "%B %d %Y") as [exc | t];
    reflexivity.
Qed.

End MakeEventFacts.

(** C7, as stated, fails.  With all assets present and a [meta.md] that
    sets the fallback flag and gives both dates as well, [make_event] raises
    nothing: it returns a fallback event and drops the dates. *)
Lemma C7_counterexample :
  make_event Strptime.strptime "evergreen" (directory_with fallback_with_dates)
  = Return (mkEvent "evergreen" true None None "Shown all year round.")
  /\ get fallback_with_dates "fallback" = Some (VBool true)
  /\ get fallback_with_dates "start_date" = Some (VStr "July 10")
  /\ get fallback_with_dates "end_date" = Some (VStr "July 20").
Proof. repeat split. Qed.

(** C7, amended.  An event that [make_event] returns is well formed:
    fallback without dates, or not fallback with both dates.  On a
    directory that passes the checks on assets and description:
    - when the fallback flag is set, the event is returned as a fallback
      event without dates, whether or not date attributes are present;
    - when the flag is absent or false and a date attribute is missing,
      [Misconfiguration] is raised;
    - when the flag is absent or false, both date attributes are present
      and one of them fails to parse, [Misconfiguration] is raised;
    - when the value of the flag is no boolean, [Misconfiguration] is
      raised. *)
Theorem C7_make_event (strptime : string -> string -> string + date)
        (name : string) (from_dir : directory) :
  (forall e, make_event strptime name from_dir = Return e -> well_formed e)
  /\ (forall attrs description,
        complete from_dir attrs description ->
        (fallback_attribute attrs = VBool true ->
         make_event strptime name from_dir
         = Return (mkEvent name true None None description))
        /\ (fallback_attribute attrs = VBool false ->
            get attrs "start_date" = None \/ get attrs "end_date" = None ->
            exists msg,
              make_event strptime name from_dir = Raised (Misconfiguration msg))
        /\ (fallback_attribute attrs = VBool false ->
            forall v w,
              get attrs "start_date" = Some v -> get attrs "end_date" = Some w ->
              (exists exc,
                  strptime (py_str v ++ " 2020")%string "%B %d %Y"%string
                  = inl exc)
              \/ (exists exc,
                     strptime (py_str w ++ " 2020")%string "%B %d %Y"%string
                     = inl exc) ->
              exists msg,
                make_event strptime name from_dir = Raised (Misconfiguration msg))
        /\ ((forall b, fallback_attribute attrs <> VBool b) ->
            make_event strptime name from_dir
            = Raised (Misconfiguration
                        "Value under 'fallback' key must be a boolean"))).
Proof.
  split.
  - intros e He. pose proof (make_event_sound strptime name from_dir) as Hs.
    now rewrite He in Hs.
  - intros attrs description Hc. split; [| split; [| split]].
    + intros Hfb.
      rewrite (make_event_complete strptime name from_dir attrs description Hc).
      now rewrite Hfb.
    + intros Hfb Hmiss.
      rewrite (make_event_complete strptime name from_dir attrs description Hc).
      rewrite Hfb. cbv zeta. cbn [filter].
      destruct Hmiss as [-> | ->].
      * destruct (get attrs "end_date"), (end_date_first from_dir);
          eexists; reflexivity.
      * destruct (get attrs "start_date"), (end_date_first from_dir);
          eexists; reflexivity.
    + intros Hfb v w Hv Hw Hfail.
      rewrite (make_event_both_dates strptime name from_dir attrs description
                                     v w Hc Hfb Hv Hw).
      destruct Hfail as [[exc Hx] | [exc Hx]].
      * rewrite Hx. eexists. reflexivity.
      * rewrite Hx.
        destruct (strptime (py_str v ++ " 2020")%string "%B %d %Y"%string);
          eexists; reflexivity.
    + intros Hb.
      rewrite (make_event_complete strptime name from_dir attrs description Hc).
      destruct (fallback_attribute attrs) as [b | |];
        [now destruct (Hb b) | reflexivity | reflexivity].
Qed.

Lemma directory_with_complete (attrs : attributes) :
  complete (directory_with attrs) attrs "Shown all year round.".
Proof.
  unfold complete, directory_with. cbn.
  repeat split; try discriminate.
  - eexists. split; [reflexivity | discriminate].
  - eexists. split; [reflexivity | discriminate].
  - lia.
Qed.

(** The fallback flag with both dates: an event is returned.  No end date:
    refused.  A start date that does not exist: refused. *)
Lemma C7_make_event_witness :
  make_event Strptime.strptime "evergreen" (directory_with fallback_with_dates)
  = Return (mkEvent "evergreen" true None None "Shown all year round.")
  /\ (exists msg,
         make_event Strptime.strptime "summer"
                    (directory_with [("start_date"%string, VStr "July 10")])
         = Raised (Misconfiguration msg))
  /\ (exists msg,
         make_event Strptime.strptime "summer"
                    (directory_with [("start_date"%string, VStr "June 31");
                                     ("end_date"%string, VStr "August 02")])
         = Raised (Misconfiguration msg)).
Proof.
  split; [| split].
  - destruct (C7_make_event Strptime.strptime "evergreen"
                            (directory_with fallback_with_dates))
      as [_ H].
    destruct (H _ _ (directory_with_complete fallback_with_dates)) as [Hf _].
    apply Hf. reflexivity.
  - destruct (C7_make_event Strptime.strptime "summer"
                (directory_with [("start_date"%string, VStr "July 10")]))
      as [_ H].
    destruct (H _ _ (directory_with_complete
                       [("start_date"%string, VStr "July 10")]))
      as [_ [Hm _]].
    apply Hm; [reflexivity | right; reflexivity].
  - destruct (C7_make_event Strptime.strptime "summer"
                (directory_with [("start_date"%string, VStr "June 31");
                                 ("end_date"%string, VStr "August 02")]))
      as [_ H].
    destruct (H _ _ (directory_with_complete
                       [("start_date"%string, VStr "June 31");
                        ("end_date"%string, VStr "August 02")]))
      as [_ [_ [Hp _]]].
    apply (Hp eq_refl (VStr "June 31") (VStr "August 02") eq_refl eq_refl).
    left. eexists. vm_compute. reflexivity.
Defined.

(** The other path of [make_event], run with the reference parser: a
    directory without the fallback flag and with both dates. *)
Example make_event_dated :
  make_event Strptime.strptime "summer"
             (directory_with [("start_date"%string, VStr "July 10");
                              ("end_date"%string, VStr "August 02")])
  = Return (mkEvent "summer" false (Some (md 7 10)) (Some (md 8 2))
                    "Shown all year round.").
Proof. vm_compute. reflexivity. Qed.

(** A date that does not exist is refused with [Misconfiguration]. *)
Example make_event_bad_date :
  exists msg,
    make_event Strptime.strptime "summer"
               (directory_with [("start_date"%string, VStr "June 31");
                                ("end_date"%string, VStr "August 02")])
    = Raised (Misconfiguration msg).
Proof. eexists. vm_compute. reflexivity. Qed.

(* ================================================================== *)
(** ** Further properties of [active_days] *)

(** An interval whose end does not come before its start in the year is
    a segment of the calendar. *)
Lemma interval_forward (s t : date) :
  in_reference_year s = true -> in_reference_year t = true ->
  (yday s <= yday t)%nat ->
  interval s t = firstn (S (yday t - yday s)) (skipn (yday s) calendar).
Proof.
  intros Hs Ht Hle. pose proof (yday_lt t Ht) as Bt.
  assert (Hspan : span s t = (yday t - yday s)%nat).
  { unfold span. lia. }
  apply (nth_ext _ _ Jan1 Jan1).
  - rewrite interval_length, length_firstn, length_skipn, calendar_length. lia.
  - intros n Hn. rewrite interval_length in Hn. unfold interval.
    rewrite (nth_indep _ Jan1 (day_at (yday s + 0))),
      (map_nth (fun i => day_at (yday s + i)))
      by (rewrite length_map, length_seq; lia).
    rewrite seq_nth by lia. simpl (0 + n)%nat.
    rewrite nth_firstn.
    replace (n <? S (yday t - yday s))%nat with true
      by (symmetry; apply Nat.ltb_lt; lia).
    rewrite nth_skipn. unfold day_at. now rewrite Nat.mod_small by lia.
Qed.

(** X1.  When the end date does not come before the start date in the
    year, the enumeration is the segment of the calendar from the start
    date to the end date: one day more than the difference of the two
    days of the year, in calendar order, once the fuel covers them. *)
Theorem forward_range (fuel : nat) (e : Event) (s t : date) :
  start_date e = Some s -> end_date e = Some t ->
  in_reference_year s = true -> in_reference_year t = true ->
  (yday s <= yday t)%nat ->
  (yday t - yday s < fuel)%nat ->
  active_days fuel e
  = (firstn (S (yday t - yday s)) (skipn (yday s) calendar), Stop)
  /\ List.length (fst (active_days fuel e)) = S (yday t - yday s).
Proof.
  intros Hs Ht Vs Vt Hle Hf. pose proof (yday_lt t Vt) as Bt.
  assert (Hspan : span s t = (yday t - yday s)%nat).
  { unfold span. lia. }
  assert (H : active_days fuel e = (interval s t, Stop)).
  { unfold active_days. rewrite Hs, Ht.
    apply active_days_loop_stops; try assumption. lia. }
  rewrite H. split.
  - now rewrite interval_forward.
  - cbn [fst]. now rewrite interval_length, Hspan.
Qed.

Lemma forward_range_witness :
  active_days 15 (dated_event "advent" (md 2 25) (md 3 2))
  = ([md 2 25; md 2 26; md 2 27; md 2 28; md 2 29; md 3 1; md 3 2], Stop).
Proof.
  refine (proj1 (forward_range 15 (dated_event "advent" (md 2 25) (md 3 2))
                               (md 2 25) (md 3 2)
                               eq_refl eq_refl eq_refl eq_refl _ _));
    vm_compute; lia.
Defined.

(** X2.  The loop compares the state with the end date as a whole, year
    included, and every state after the first is in the reference year:
    with a start date in the reference year and an end date of another
    year the enumeration never stops.  Whatever the fuel, it is still
    running, having yielded one day per unit of fuel. *)
Theorem end_date_of_another_year (fuel : nat) (e : Event) (s t : date) :
  start_date e = Some s -> end_date e = Some t ->
  in_reference_year s = true ->
  year t <> ARBITRARY_YEAR ->
  active_days fuel e
  = (map (fun i => day_at (yday s + i)) (seq 0 fuel), Running).
Proof.
  intros Hs Ht Vs Hy. unfold active_days. rewrite Hs, Ht.
  clear Hs Ht. revert s Vs.
  induction fuel as [| fuel IH]; intros s Vs; [reflexivity |].
  rewrite active_days_loop_step.
  destruct (eqb s t) eqn:E.
  { apply eqb_eq in E. subst t.
    now apply year_in_reference_year in Vs. }
  rewrite (next_state_in_year s Vs).
  rewrite (IH _ (day_at_in_reference_year _)).
  unfold yield. cbn [fst snd]. f_equal.
  change (seq 0 (S fuel)) with (0%nat :: seq 1 fuel).
  rewrite <- seq_shift, map_cons, map_map.
  rewrite Nat.add_0_r, (day_at_yday s Vs). f_equal.
  apply map_ext. intros i. apply day_at_shift.
Qed.

Lemma end_date_of_another_year_witness :
  active_days 3 (mkEvent "next-year" false (Some (md 12 30))
                         (Some (mkdate 2021 1 2)) "Ends in 2021.")
  = ([md 12 30; md 12 31; md 1 1], Running).
Proof.
  apply (end_date_of_another_year
           3 (mkEvent "next-year" false (Some (md 12 30))
                      (Some (mkdate 2021 1 2)) "Ends in 2021.")
           (md 12 30) (mkdate 2021 1 2));
    try reflexivity. discriminate.
Defined.

Lemma active_days_loop_years (fuel : nat) :
  forall s t : date,
    year s = ARBITRARY_YEAR ->
    Forall (fun d => year d = ARBITRARY_YEAR) (fst (active_days_loop fuel s t)).
Proof.
  induction fuel as [| fuel IH]; intros s t Hy; simpl; [constructor |].
  constructor; [assumption |].
  destruct (eqb s t); [constructor |].
  destruct (add_one_day s) as [x | next]; [constructor |].
  unfold replace_year. cbv zeta.
  destruct (valid _); [| constructor].
  apply IH. reflexivity.
Qed.

(** X3.  The docstring says that all dates returned are in the same year.
    Whatever the event, every date yielded after the first one is in the
    reference year; the first one is the start date as it is given, so
    all of them are in the reference year when the start date is. *)
Theorem yielded_years (fuel : nat) (e : Event) :
  Forall (fun d => year d = ARBITRARY_YEAR) (tl (fst (active_days fuel e)))
  /\ (forall s, start_date e = Some s -> year s = ARBITRARY_YEAR ->
        Forall (fun d => year d = ARBITRARY_YEAR) (fst (active_days fuel e))).
Proof.
  unfold active_days. split.
  - destruct (start_date e) as [s |], (end_date e) as [t |];
      try (simpl; constructor).
    destruct fuel as [| fuel]; simpl; [constructor |].
    destruct (eqb s t); [constructor |].
    destruct (add_one_day s) as [x | next]; [constructor |].
    unfold replace_year. cbv zeta.
    destruct (valid _); [| constructor].
    apply active_days_loop_years. reflexivity.
  - intros s Hs Hy. rewrite Hs.
    destruct (end_date e) as [t |]; [| constructor].
    now apply active_days_loop_years.
Qed.

Lemma yielded_years_witness :
  Forall (fun d => year d = ARBITRARY_YEAR)
         (fst (active_days 40 (dated_event "winter" (md 12 20) (md 1 5)))).
Proof.
  apply (yielded_years 40 (dated_event "winter" (md 12 20) (md 1 5)))
    with (s := md 12 20); reflexivity.
Defined.

Lemma active_days_loop_ends (fuel : nat) :
  forall (s t : date) (ds : list date),
    active_days_loop fuel s t = (ds, Stop) ->
    (exists rest, ds = s :: rest) /\ (exists front, ds = front ++ [t]).
Proof.
  induction fuel as [| fuel IH]; intros s t ds H; [discriminate |].
  rewrite active_days_loop_step in H. unfold yield in H.
  destruct (eqb s t) eqn:E.
  - apply eqb_eq in E. subst t. injection H as <-.
    split; [now exists [] | now exists []].
  - destruct (next_state s) as [x | s']; [discriminate |].
    destruct (active_days_loop fuel s' t) as [ds' r] eqn:El.
    cbn [fst snd] in H. injection H as <- ->.
    destruct (IH _ _ _ El) as [_ [front Hfront]].
    split; [now exists ds' |]. exists (s :: front). now rewrite Hfront.
Qed.

(** X4.  The range is inclusive at both ends, whatever the dates: an
    enumeration that stops has begun with the start date and has ended
    with the end date. *)
Theorem both_ends_included (fuel : nat) (e : Event) (s t : date)
        (ds : list date) :
  start_date e = Some s -> end_date e = Some t ->
  active_days fuel e = (ds, Stop) ->
  (exists rest, ds = s :: rest) /\ (exists front, ds = front ++ [t]).
Proof.
  intros Hs Ht. unfold active_days. rewrite Hs, Ht.
  apply active_days_loop_ends.
Qed.

Lemma both_ends_included_witness :
  (exists rest, [md 12 31; md 1 1; md 1 2] = md 12 31 :: rest)
  /\ (exists front, [md 12 31; md 1 1; md 1 2] = front ++ [md 1 2]).
Proof.
  apply (both_ends_included 366 (dated_event "turn" (md 12 31) (md 1 2))
                            (md 12 31) (md 1 2));
    reflexivity.
Defined.

(* ================================================================== *)
(** ** Further properties of [find_collisions] *)

(** The returned mapping of dated events, by its keys and its values. *)
Lemma collisions_dated (fuel : nat) (events : list Event) :
  (366 <= fuel)%nat -> Forall dated events ->
  exists collisions : schedule,
    find_collisions fuel events = Return collisions
    /\ NoDup (map fst collisions)
    /\ (forall d, In d (map fst collisions)
                  <-> (2 <= List.length (claimants d events))%nat)
    /\ (forall d evs, In (d, evs) collisions -> evs = claimants d events).
Proof.
  intros Hf Hd.
  destruct (find_collisions_dated fuel events Hf Hd) as [Hfc [Hnd Hlk]].
  eexists. split; [exact Hfc |]. split; [| split].
  - rewrite keys_collisions. apply NoDup_filter.
    unfold first_occurrences. apply NoDup_fold_add_key. constructor.
  - intros d. rewrite keys_collisions, filter_In, Nat.ltb_lt. split.
    + intros [_ Hlen]. lia.
    + intros Hlen. split; [| lia].
      unfold first_occurrences.
      change (@nil date) with (map fst (@nil (date * list Event))).
      rewrite <- keys_filled. apply lookup_key. rewrite Hlk.
      destruct (claimants d events); simpl in *; [lia | discriminate].
  - intros d evs Hin. apply filter_In in Hin. destruct Hin as [Hin _].
    rewrite <- Hlk. symmetry. now apply lookup_In.
Qed.

Lemma no_collisions_dated (fuel : nat) (events : list Event) :
  (366 <= fuel)%nat -> Forall dated events ->
  (find_collisions fuel events = Return []
   <-> forall d, (List.length (claimants d events) <= 1)%nat).
Proof.
  intros Hf Hd.
  destruct (collisions_dated fuel events Hf Hd) as [c [Hfc [_ [Hkeys _]]]].
  rewrite Hfc. split.
  - intros H d. injection H as ->.
    destruct (Nat.le_gt_cases (List.length (claimants d events)) 1) as [Hle | Hgt];
      [assumption |].
    apply Hkeys in Hgt. destruct Hgt.
  - intros H. destruct c as [| [d evs] c]; [reflexivity |].
    assert (Hin : In d (map fst ((d, evs) :: c))) by now left.
    apply Hkeys in Hin. specialize (H d). lia.
Qed.

(** X5.  For dated events, [find_collisions] returns the empty mapping
    exactly when no day is claimed by two events of the list. *)
Theorem no_collision_iff_disjoint (fuel : nat) (events : list Event) :
  (366 <= fuel)%nat -> Forall dated events ->
  (find_collisions fuel events = Return []
   <-> forall d, (List.length (claimants d events) <= 1)%nat).
Proof.
  intros Hf Hd.
  destruct (collisions_dated fuel events Hf Hd) as [c [Hfc [_ [Hkeys _]]]].
  rewrite Hfc. split.
  - intros H d. injection H as ->.
    destruct (Nat.le_gt_cases (List.length (claimants d events)) 1) as [Hle | Hgt];
      [assumption |].
    apply Hkeys in Hgt. destruct Hgt.
  - intros H. destruct c as [| [d evs] c]; [reflexivity |].
    assert (Hin : In d (map fst ((d, evs) :: c))) by now left.
    apply Hkeys in Hin. specialize (H d). lia.
Qed.

(** Two events that share no day: Jan 1 to Jan 5, and Jan 10 to Jan 15. *)
Lemma no_collision_iff_disjoint_witness :
  find_collisions 366 [dated_event "A" (md 1 1) (md 1 5);
                       dated_event "B" (md 1 10) (md 1 15)] = Return []
  <-> forall d,
      (List.length (claimants d [dated_event "A" (md 1 1) (md 1 5);
                                 dated_event "B" (md 1 10) (md 1 15)]) <= 1)%nat.
Proof.
  refine (no_collision_iff_disjoint
            366 [dated_event "A" (md 1 1) (md 1 5);
                 dated_event "B" (md 1 10) (md 1 15)] (le_n _) _).
  repeat constructor; apply dated_dated_event; reflexivity.
Defined.

Lemma fill_schedule_usage_error (fuel : nat) (front : list Event)
      (e : Event) (back : list Event) :
  (366 <= fuel)%nat -> Forall dated front -> lacks_dates e = true ->
  forall s, fill_schedule fuel (front ++ e :: back) s
            = Raised (RuntimeError usage_message).
Proof.
  intros Hf Hd He. induction Hd as [| x front Hx _ IH]; intros s; simpl.
  - unfold active_days, lacks_dates in *.
    destruct (start_date e), (end_date e); (discriminate || reflexivity).
  - rewrite (active_days_dated fuel x Hx Hf). apply IH.
Qed.

(** X6.  The docstring asks that the list hold no fallback event.  When
    an event of the list lacks a date and the events before it are dated,
    [find_collisions] returns no mapping: the usage error of [active_days]
    leaves it, whatever follows in the list. *)
Theorem find_collisions_usage_error (fuel : nat) (front : list Event)
        (e : Event) (back : list Event) :
  (366 <= fuel)%nat -> Forall dated front -> lacks_dates e = true ->
  find_collisions fuel (front ++ e :: back)
  = Raised (RuntimeError usage_message).
Proof.
  intros Hf Hd He. unfold find_collisions.
  now rewrite (fill_schedule_usage_error fuel front e back Hf Hd He).
Qed.

Lemma find_collisions_usage_error_witness :
  find_collisions 366 ([event_A] ++ fallback_event "evergreen" :: [event_B])
  = Raised (RuntimeError usage_message).
Proof.
  refine (find_collisions_usage_error 366 [event_A] (fallback_event "evergreen")
                                      [event_B] (le_n _) _ eq_refl).
  repeat constructor; apply dated_dated_event; reflexivity.
Defined.

Lemma Permutation_filter_events (f : Event -> bool) (l l' : list Event) :
  Permutation l l' -> Permutation (filter f l) (filter f l').
Proof.
  induction 1 as [| x l l' _ IH | x y l | l l' l'' _ IH1 _ IH2]; simpl.
  - constructor.
  - destruct (f x); [now constructor | assumption].
  - destruct (f x), (f y); try apply Permutation_refl. apply perm_swap.
  - now apply Permutation_trans with (filter f l').
Qed.

Lemma Forall_dated_Permutation (l l' : list Event) :
  Permutation l l' -> Forall dated l -> Forall dated l'.
Proof.
  intros Hp H. rewrite Forall_forall in *. intros x Hx.
  apply H. apply Permutation_in with l'; [now apply Permutation_sym | assumption].
Qed.

(** X7.  Which days collide does not depend on the order of the events:
    for two lists of dated events that are permutations of each other, the
    keys of the two mappings are the same days, and on a day the two lists
    of events are permutations of each other. *)
Theorem collisions_of_permuted_events (fuel : nat) (events events' : list Event) :
  (366 <= fuel)%nat -> Forall dated events -> Permutation events events' ->
  exists collisions collisions' : schedule,
    find_collisions fuel events = Return collisions
    /\ find_collisions fuel events' = Return collisions'
    /\ Permutation (map fst collisions) (map fst collisions')
    /\ (forall d evs evs',
           In (d, evs) collisions -> In (d, evs') collisions' ->
           Permutation evs evs').
Proof.
  intros Hf Hd Hp.
  pose proof (Forall_dated_Permutation _ _ Hp Hd) as Hd'.
  destruct (collisions_dated fuel events Hf Hd) as [c [Hc [Hnd [Hk Hv]]]].
  destruct (collisions_dated fuel events' Hf Hd') as [c' [Hc' [Hnd' [Hk' Hv']]]].
  assert (Hcl : forall d, Permutation (claimants d events) (claimants d events')).
  { intros d. unfold claimants. now apply Permutation_filter_events. }
  exists c, c'. repeat split; try assumption.
  - apply NoDup_Permutation; try assumption.
    intros d. rewrite Hk, Hk', (Permutation_length (Hcl d)). reflexivity.
  - intros d evs evs' Hin Hin'.
    rewrite (Hv _ _ Hin), (Hv' _ _ Hin'). apply Hcl.
Qed.

Lemma collisions_of_permuted_events_witness :
  exists collisions collisions' : schedule,
    find_collisions 366 [event_A; event_B] = Return collisions
    /\ find_collisions 366 [event_B; event_A] = Return collisions'
    /\ Permutation (map fst collisions) (map fst collisions')
    /\ (forall d evs evs',
           In (d, evs) collisions -> In (d, evs') collisions' ->
           Permutation evs evs').
Proof.
  refine (collisions_of_permuted_events 366 [event_A; event_B]
                                        [event_B; event_A] (le_n _) _ _).
  - repeat constructor; apply dated_dated_event; reflexivity.
  - apply perm_swap.
Defined.

(* ================================================================== *)
(** ** Further properties of [check_date_configuration] *)

(** X8.  With exactly one fallback event and dated events otherwise,
    [check_date_configuration] returns exactly when no day is claimed by
    two of the dated events; if it does not return, what it raises is a
    [Misconfiguration]. *)
Theorem configuration_accepted_iff (fuel : nat) (events : list Event) :
  (366 <= fuel)%nat ->
  List.length (filter fallback events) = 1%nat ->
  Forall dated (non_fallback events) ->
  (check_date_configuration fuel events = Return tt
   <-> forall d, (List.length (claimants d (non_fallback events)) <= 1)%nat)
  /\ (check_date_configuration fuel events = Return tt
      \/ exists msg,
          check_date_configuration fuel events = Raised (Misconfiguration msg)).
Proof.
  intros Hf H1 Hd.
  pose proof (no_collisions_dated fuel (non_fallback events) Hf Hd) as Hiff.
  destruct (find_collisions_dated fuel (non_fallback events) Hf Hd) as [Hfc _].
  rewrite (check_date_configuration_one_fallback fuel events H1).
  fold (non_fallback events). rewrite Hfc in *.
  destruct (filter _ (filled (non_fallback events) [])) as [| kv c].
  - split; [| now left]. split; [intros _; now apply Hiff | reflexivity].
  - split; [| right; eexists; reflexivity].
    split; [discriminate |]. intros H. apply Hiff in H. discriminate.
Qed.

Lemma configuration_accepted_iff_witness :
  (check_date_configuration
     366 [dated_event "A" (md 1 1) (md 1 5); fallback_event "evergreen";
          dated_event "B" (md 1 10) (md 1 15)] = Return tt
   <-> forall d,
       (List.length
          (claimants d (non_fallback
                          [dated_event "A" (md 1 1) (md 1 5);
                           fallback_event "evergreen";
                           dated_event "B" (md 1 10) (md 1 15)])) <= 1)%nat)
  /\ (check_date_configuration
        366 [dated_event "A" (md 1 1) (md 1 5); fallback_event "evergreen";
             dated_event "B" (md 1 10) (md 1 15)] = Return tt
      \/ exists msg,
          check_date_configuration
            366 [dated_event "A" (md 1 1) (md 1 5); fallback_event "evergreen";
                 dated_event "B" (md 1 10) (md 1 15)]
          = Raised (Misconfiguration msg)).
Proof.
  refine (configuration_accepted_iff
            366 [dated_event "A" (md 1 1) (md 1 5); fallback_event "evergreen";
                 dated_event "B" (md 1 10) (md 1 15)] (le_n _) eq_refl _).
  repeat constructor; apply dated_dated_event; reflexivity.
Defined.

(* ================================================================== *)
(** ** Further properties of [make_event] *)

Section MakeEventMore.

Variable strptime : string -> string -> string + date.


(** X10.  An event is returned only for a directory that passes every
    check on assets and description: the event has the name that was
    given, and its description is the one of [meta.md], not empty and of at
    most 2048 characters. *)
Theorem returned_event_checked (name0 : string) (from_dir : directory)
        (e : Event) :
  make_event strptime name0 from_dir = Return e ->
  name e = name0
  /\ (1 <= String.length (description e) <= 2048)%nat
  /\ exists attrs, complete from_dir attrs (description e).
Proof.
  unfold make_event, complete.
  destruct (server_icons_is_dir from_dir), (banners_is_dir from_dir),
    (meta_is_file from_dir); try discriminate.
  cbn [filter snd negb map fst join is_empty].
  destruct (server_icons_files from_dir) as [os | [| i icons]];
    [discriminate | destruct (banners_files from_dir); discriminate |].
  destruct (banners_files from_dir) as [os | [| b banners]];
    [discriminate | discriminate |].
  destruct (meta_parsed from_dir) as [exc | [attrs desc]]; [discriminate |].
  destruct (is_empty desc) eqn:Hne; [discriminate |].
  destruct (String.length desc <=? 2048)%nat eqn:Hlen; [| discriminate].
  apply Nat.leb_le in Hlen. cbv zeta. cbn [negb].
  assert (Hpos : (1 <= String.length desc)%nat).
  { destruct desc; [discriminate | simpl; lia]. }
  assert (Hall : forall f s t,
             Return (mkEvent name0 f s t desc) = Return e ->
             name e = name0
             /\ (1 <= String.length (description e) <= 2048)%nat
             /\ exists attrs0,
                 true = true /\ true = true /\ true = true
                 /\ (exists icons0,
                        @inr string _ (i :: icons) = inr icons0 /\ icons0 <> [])
                 /\ (exists banners0,
                        @inr string _ (b :: banners) = inr banners0
                        /\ banners0 <> [])
                 /\ @inr string _ (attrs, desc) = inr (attrs0, description e)
                 /\ is_empty (description e) = false
                 /\ (String.length (description e) <= 2048)%nat).
  { intros f s t H. injection H as <-. cbn [name description].
    repeat split; try assumption.
    exists attrs. repeat split; try assumption.
    - eexists. split; [reflexivity | discriminate].
    - eexists. split; [reflexivity | discriminate]. }
  destruct (match get attrs "fallback" with Some v => v | None => VBool false end)
    as [[|] | |]; try discriminate.
  - intros H. now apply (Hall _ _ _ H).
  - cbn [filter]. unfold parse_date.
    destruct (get attrs "start_date"), (get attrs "end_date");
      try (destruct (end_date_first from_dir); discriminate).
    cbn [rev app].
    replace (if end_date_first from_dir then [] else [])
      with (@nil string) by (destruct (end_date_first from_dir); reflexivity).
    destruct (strptime _ _); [discriminate |].
    destruct (strptime _ _); [discriminate |].
    intros H. now apply (Hall _ _ _ H).
Qed.

(** X11.  On a directory that passes the checks on assets and description,
    without the fallback flag and with both date attributes, each date is
    parsed from the text of the attribute followed by a blank and 2020.
    The event holds the two dates as parsed; a start date that fails to
    parse is reported, also when the end date fails as well. *)
Theorem dates_parsed_in_order (name : string) (from_dir : directory)
        (attrs : attributes) (description : string) (v w : value) :
  complete from_dir attrs description ->
  fallback_attribute attrs = VBool false ->
  get attrs "start_date" = Some v -> get attrs "end_date" = Some w ->
  make_event strptime name from_dir
  = match strptime (py_str v ++ " 2020")%string "%B %d %Y" with
    | inl exc =>
        Raised (Misconfiguration
                  ("Attribute 'start_date' with value '" ++ py_str v
                   ++ "' failed to parse: " ++ exc)%string)
    | inr s =>
        match strptime (py_str w ++ " 2020")%string "%B %d %Y" with
        | inl exc =>
            Raised (Misconfiguration
                      ("Attribute 'end_date' with value '" ++ py_str w
                       ++ "' failed to parse: " ++ exc)%string)
        | inr t => Return (mkEvent name false (Some s) (Some t) description)
        end
    end.
Proof.
  intros Hc Hfb Hs He.
  rewrite (make_event_complete strptime name from_dir attrs description Hc).
  rewrite Hfb. cbv zeta. cbn [filter]. rewrite Hs, He.
  replace (if end_date_first from_dir then rev [] else [])
    with (@nil string) by (destruct (end_date_first from_dir); reflexivity).
  unfold parse_date. rewrite Hs, He.
  change (" " ++ str_of_Z ARBITRARY_YEAR)%string with " 2020"%string.
  change date_fmt with "%B %d %Y"%string.
  destruct (strptime (py_str v ++ " 2020")%string "%B %d %Y") as [exc | s];
    [reflexivity |].
  destruct (strptime (py_str w ++ " 2020")%string "%B %d %Y") as [exc | t];
    reflexivity.
Qed.

(** X12.  [make_event] and [active_days] fit together: for an event that
    [make_event] returns, a date is missing exactly when the event is the
    fallback event, so [active_days] raises its usage error on the
    fallback event and on no other. *)
Theorem usage_error_iff_fallback (name : string) (from_dir : directory)
        (e : Event) (fuel : nat) :
  make_event strptime name from_dir = Return e ->
  lacks_dates e = fallback e
  /\ ((exists msg, snd (active_days fuel e) = Raise (RuntimeError msg))
      <-> fallback e = true).
Proof.
  intros H. pose proof (make_event_sound strptime name from_dir) as Hs.
  rewrite H in Hs. unfold lacks_dates.
  destruct Hs as [[Hf [Hsd Hed]] | [Hf [Hsd Hed]]].
  - rewrite Hf. split; [now rewrite Hsd |].
    split; [reflexivity |]. intros _. exists usage_message.
    unfold active_days. now rewrite Hsd.
  - rewrite Hf. split.
    + destruct (start_date e), (end_date e); congruence.
    + split; [| discriminate]. intros [msg Hm].
      apply usage_error_without_dates in Hm. destruct Hm; contradiction.
Qed.

End MakeEventMore.


Lemma returned_event_checked_witness :
  name (mkEvent "evergreen" true None None "Shown all year round.") = "evergreen"%string
  /\ (1 <= String.length
            (description (mkEvent "evergreen" true None None
                                  "Shown all year round.")) <= 2048)%nat
  /\ exists attrs,
      complete (directory_with fallback_with_dates) attrs
               (description (mkEvent "evergreen" true None None
                                     "Shown all year round.")).
Proof.
  refine (returned_event_checked
            Strptime.strptime "evergreen" (directory_with fallback_with_dates)
            (mkEvent "evergreen" true None None "Shown all year round.") _).
  reflexivity.
Defined.

Lemma dates_parsed_in_order_witness :
  make_event Strptime.strptime "summer"
             (directory_with [("start_date"%string, VStr "June 31");
                              ("end_date"%string, VStr "Augustus 02")])
  = Raised (Misconfiguration
              "Attribute 'start_date' with value 'June 31' failed to parse: day is out of range for month").
Proof.
  refine (dates_parsed_in_order
            Strptime.strptime "summer"
            (directory_with [("start_date"%string, VStr "June 31");
                             ("end_date"%string, VStr "Augustus 02")])
            [("start_date"%string, VStr "June 31");
             ("end_date"%string, VStr "Augustus 02")]
            "Shown all year round." (VStr "June 31") (VStr "Augustus 02")
            (directory_with_complete _) eq_refl eq_refl eq_refl).
Defined.

Lemma usage_error_iff_fallback_witness :
  lacks_dates (mkEvent "evergreen" true None None "Shown all year round.")
  = fallback (mkEvent "evergreen" true None None "Shown all year round.")
  /\ ((exists msg,
          snd (active_days 366 (mkEvent "evergreen" true None None
                                        "Shown all year round."))
          = Raise (RuntimeError msg))
      <-> fallback (mkEvent "evergreen" true None None
                            "Shown all year round.") = true).
Proof.
  refine (usage_error_iff_fallback
            Strptime.strptime "evergreen" (directory_with fallback_with_dates)
            (mkEvent "evergreen" true None None "Shown all year round.") 366 _).
  reflexivity.
Defined.

(* ================================================================== *)
(** ** Properties of [main] *)

Section MainFacts.

Variable strptime : string -> string -> string + date.








(** X19.  The two listings of [make_event] are outside every [try]: when
    the three assets exist and a listing raises [OSError], that error leaves
    [make_event], before the folders are tested for files and before
    [meta.md] is read.  The listing of [server_icons] comes first. *)
Theorem listing_error_propagates (name : string) (from_dir : directory)
        (msg : string) :
  missing_names from_dir = [] ->
  server_icons_files from_dir = inl msg
  \/ ((exists icons, server_icons_files from_dir = inr icons)
      /\ banners_files from_dir = inl msg) ->
  make_event strptime name from_dir = Raised (OSError msg)
  /\ is_misconfiguration (OSError msg) = false.
Proof.
  intros Hm H. split; [| reflexivity].
  unfold make_event. unfold missing_names in Hm.
  destruct (server_icons_is_dir from_dir), (banners_is_dir from_dir),
    (meta_is_file from_dir); try discriminate Hm.
  cbn [filter snd negb map fst join is_empty].
  destruct H as [-> | [[icons ->] ->]]; reflexivity.
Qed.


End MainFacts.







(** A [banners] folder that cannot be read, though [server_icons] is
    empty: the error of the listing comes before the test for files. *)
Lemma listing_error_propagates_witness :
  make_event Strptime.strptime "summer"
             (mkdirectory true true true (inr []) (inl "Permission denied"%string)
                          (inl "unread"%string) false)
  = Raised (OSError "Permission denied")
  /\ is_misconfiguration (OSError "Permission denied") = false.
Proof.
  refine (listing_error_propagates
            Strptime.strptime "summer"
            (mkdirectory true true true (inr []) (inl "Permission denied"%string)
                         (inl "unread"%string) false)
            "Permission denied" eq_refl _).
  right. split; [now exists [] | reflexivity].
Defined.


(* ================================================================== *)
(** ** Bounds and error paths of the date check *)

Lemma claimed_day_in_calendar (d : date) (events : list Event) :
  Forall dated events -> claimants d events <> [] -> In d calendar.
Proof.
  intros Hd Hne. unfold claimants in Hne.
  destruct (filter _ events) as [| e l] eqn:E; [congruence |].
  assert (Hin : In e (filter (fun e => existsb (eqb d) (days e)) events))
    by (rewrite E; now left).
  apply filter_In in Hin. destruct Hin as [Hin Hex].
  apply existsb_eqb_In in Hex.
  rewrite Forall_forall in Hd. destruct (Hd e Hin) as [s [t [Hs [Ht _]]]].
  unfold days in Hex. rewrite Hs, Ht in Hex.
  now apply (interval_incl_calendar s t).
Qed.

(** X16.  However many dated events there are, the mapping of
    [find_collisions] has at most 366 keys, each a well-formed date of the
    reference year; so a collision report has at most 366 lines. *)
Theorem collisions_bounded (fuel : nat) (events : list Event) :
  (366 <= fuel)%nat -> Forall dated events ->
  exists collisions : schedule,
    find_collisions fuel events = Return collisions
    /\ (List.length collisions <= 366)%nat
    /\ Forall (fun kv => in_reference_year (fst kv) = true) collisions.
Proof.
  intros Hf Hd.
  destruct (collisions_dated fuel events Hf Hd) as [c [Hc [Hnd [Hk _]]]].
  exists c. split; [assumption |].
  assert (Hincl : incl (map fst c) calendar).
  { intros d Hin. apply Hk in Hin.
    apply (claimed_day_in_calendar d events Hd).
    destruct (claimants d events); simpl in *; [lia | discriminate]. }
  split.
  - rewrite <- (length_map fst c), <- calendar_length.
    now apply NoDup_incl_length.
  - apply Forall_forall. intros kv Hin. apply in_calendar. apply Hincl.
    now apply in_map.
Qed.

Lemma collisions_bounded_witness :
  exists collisions : schedule,
    find_collisions 366 [event_A; event_B] = Return collisions
    /\ (List.length collisions <= 366)%nat
    /\ Forall (fun kv => in_reference_year (fst kv) = true) collisions.
Proof.
  refine (collisions_bounded 366 [event_A; event_B] (le_n _) _).
  repeat constructor; apply dated_dated_event; reflexivity.
Defined.

(** X17.  Two dated events are found to collide exactly when their ranges
    share a day: for a list of two, the mapping is empty if and only if no
    day is a day of both. *)
Theorem two_events_collide_iff (fuel : nat) (a b : Event) :
  (366 <= fuel)%nat -> dated a -> dated b ->
  (find_collisions fuel [a; b] = Return []
   <-> forall d, ~ (In d (days a) /\ In d (days b))).
Proof.
  intros Hf Ha Hb.
  assert (Hd : Forall dated [a; b]) by (repeat constructor; assumption).
  rewrite (no_collisions_dated fuel [a; b] Hf Hd).
  split; intros H d; specialize (H d); unfold claimants in *; simpl in *.
  - intros [Hda Hdb]. apply existsb_eqb_In in Hda, Hdb.
    rewrite Hda, Hdb in H. simpl in H. lia.
  - destruct (existsb (eqb d) (days a)) eqn:Ea,
             (existsb (eqb d) (days b)) eqn:Eb; simpl; try lia.
    apply existsb_eqb_In in Ea, Eb. tauto.
Qed.

Lemma two_events_collide_iff_witness :
  find_collisions 366 [dated_event "A" (md 1 1) (md 1 5);
                       dated_event "B" (md 1 10) (md 1 15)] = Return []
  <-> forall d, ~ (In d (days (dated_event "A" (md 1 1) (md 1 5)))
                   /\ In d (days (dated_event "B" (md 1 10) (md 1 15)))).
Proof.
  refine (two_events_collide_iff 366 (dated_event "A" (md 1 1) (md 1 5))
                                 (dated_event "B" (md 1 10) (md 1 15))
                                 (le_n _) _ _);
    apply dated_dated_event; reflexivity.
Defined.

(** X18.  [check_date_configuration] catches nothing.  With exactly one
    fallback event, when one of the other events lacks a date and those
    before it are dated, the usage error of [active_days] leaves
    [check_date_configuration]; it is no [Misconfiguration], so the handler
    of [main] would not catch it. *)
Theorem configuration_usage_error (fuel : nat) (events front : list Event)
        (e : Event) (back : list Event) :
  (366 <= fuel)%nat ->
  List.length (filter fallback events) = 1%nat ->
  non_fallback events = front ++ e :: back ->
  Forall dated front -> lacks_dates e = true ->
  check_date_configuration fuel events = Raised (RuntimeError usage_message)
  /\ is_misconfiguration (RuntimeError usage_message) = false.
Proof.
  intros Hf H1 Hsplit Hd He. split; [| reflexivity].
  rewrite (check_date_configuration_one_fallback fuel events H1).
  fold (non_fallback events). rewrite Hsplit.
  unfold find_collisions.
  now rewrite (fill_schedule_usage_error fuel front e back Hf Hd He).
Qed.

Lemma configuration_usage_error_witness :
  check_date_configuration
    366 [fallback_event "evergreen"; event_A;
         mkEvent "half" false (Some (md 7 10)) None "No end date."]
  = Raised (RuntimeError usage_message)
  /\ is_misconfiguration (RuntimeError usage_message) = false.
Proof.
  refine (configuration_usage_error
            366 [fallback_event "evergreen"; event_A;
                 mkEvent "half" false (Some (md 7 10)) None "No end date."]
            [event_A]
            (mkEvent "half" false (Some (md 7 10)) None "No end date.")
            [] (le_n _) eq_refl eq_refl _ eq_refl).
  repeat constructor; apply dated_dated_event; reflexivity.
Defined.

(** The reference parser on a text that is no date, and on white space
    other than blanks. *)
Example strptime_no_match :
  Strptime.strptime "Smarch 45 2020" date_fmt
  = inl "time data 'Smarch 45 2020' does not match format '%B %d %Y'"%string.
Proof. vm_compute. reflexivity. Qed.

Example strptime_tab :
  Strptime.strptime ("July" ++ String (ascii_of_nat 9) "10 2020") date_fmt
  = inr (md 7 10).
Proof. vm_compute. reflexivity. Qed.

Example strptime_unconverted :
  Strptime.strptime "July 10 1999 2020" date_fmt
  = inl "unconverted data remains:  2020"%string.
Proof. vm_compute. reflexivity. Qed.
